(** * Tool-chain orchestration engine of github_automation_tool

    A shallow embedding of [tool_contracts.py] (the result/metadata
    schema, its JSON round trip and its derived status) and of
    [tool_execution_engine.py] (the tool executor, the chain executor and
    its three strategies, the workflow engine and the orchestrator).

    Python values that cross JSON are modelled as the JSON tree the
    serializer produces; dicts are key/value lists in insertion order
    (every dict the program builds has distinct keys).  The injected
    [api_client], the intent registry and the keyword classifier are
    parameters of the model. *)

From Stdlib Require Import String List ZArith Bool Lia.
Import ListNotations.
Open Scope Z_scope.
Open Scope string_scope.
Set Warnings "-register-all".

(* ------------------------------------------------------------------ *)
(** ** Data model: [tool_contracts.py] *)

(** A Python float.  A finite double is written by pydantic as its
    shortest repr and read back to the same double; the model keeps a
    finite double as an opaque code. *)
Inductive pyfloat : Type :=
| FFinite (code : Z)
| FInf
| FNegInf
| FNaN.

(** JSON-shaped Python values ([Any] payloads, parameter values):
    [None], [bool], [int], [float], [str], and lists and [str]-keyed
    dicts of those.  [JNull] is Python's [None].  Other Python values
    (tuples, sets, dicts with non-[str] keys, bytes) are outside the
    model. *)
Inductive json : Type :=
| JNull
| JBool (b : bool)
| JInt (z : Z)
| JFloat (f : pyfloat)
| JStr (s : string)
| JArr (xs : list json)
| JObj (kvs : list (string * json)).

(** [Dict[str, Any]] *)
Definition pydict := list (string * json).

(** [class ToolType(Enum)] *)
Inductive ToolType : Type :=
| CREATOR | ANALYZER | MODIFIER | RETRIEVER | VALIDATOR | EXECUTOR | REPORTER.

Definition ToolType_value (t : ToolType) : Z :=
  match t with
  | CREATOR => 0 | ANALYZER => 1 | MODIFIER => 2 | RETRIEVER => 3
  | VALIDATOR => 4 | EXECUTOR => 5 | REPORTER => 6
  end.

Definition ToolType_of_value (z : Z) : option ToolType :=
  match z with
  | 0 => Some CREATOR | 1 => Some ANALYZER | 2 => Some MODIFIER
  | 3 => Some RETRIEVER | 4 => Some VALIDATOR | 5 => Some EXECUTOR
  | 6 => Some REPORTER | _ => None
  end.

Definition ToolType_eqb (a b : ToolType) : bool :=
  Z.eqb (ToolType_value a) (ToolType_value b).

(** [class ToolExecutionStatus(Enum)] *)
Inductive ToolExecutionStatus : Type :=
| Processing
| Complete
| Failed.

(** [class UserContextInfo(BaseModel)] *)
Record UserContextInfo : Type := {
  userId : string;
  sessionId : string
}.

(** [class ContentSummary(BaseModel)] *)
Record ContentSummary : Type := {
  fields : list string;
  recordCount : Z
}.

(** [class SuggestedToolReference(BaseModel)] *)
Record SuggestedToolReference : Type := {
  toolType : ToolType;
  toolNameHint : option string;
  reason : option string;
  parameters : option pydict;
  outputLabel : option string
}.

(** [class ToolMetadata(BaseModel)] *)
Record ToolMetadata : Type := {
  dataType : string;
  dataSize : Z;
  intent : string;
  description : string;
  accessibility : string;
  requiresPostProcessing : bool;
  suggestedTools : list SuggestedToolReference;
  contentSummary : option ContentSummary;
  confidence : pyfloat
}.

(** [class ToolResult(BaseModel)]; [timestamp] is a [datetime], kept as
    the ISO 8601 text pydantic writes for it and reads back. *)
Record ToolResult : Type := {
  toolResultId : string;
  toolName : string;
  timestamp : string;
  conversationId : option string;
  conversationMessageId : option string;
  userContext : option UserContextInfo;
  metadata : ToolMetadata;
  payload : json;
  stepIndex : Z;
  parentToolResultId : option string
}.

(** [ToolResult.status] *)
Definition status (r : ToolResult) : ToolExecutionStatus :=
  if requiresPostProcessing (metadata r) then Processing else Complete.

(* ------------------------------------------------------------------ *)
(** ** Serialization: [ToolResult.to_json] / [ToolResult.from_json] *)

(** pydantic's default [ser_json_inf_nan = 'null']: a non-finite float is
    written as [null]. *)
Definition dump_float (f : pyfloat) : json :=
  match f with
  | FFinite c => JFloat (FFinite c)
  | _ => JNull
  end.

(** Serialization of a value of type [Any]: the value itself, with
    non-finite floats written as [null].  [exclude_none] only drops model
    fields, never the items of a dict or a list. *)
Fixpoint dump_any (j : json) : json :=
  match j with
  | JFloat f => dump_float f
  | JArr xs => JArr (map dump_any xs)
  | JObj kvs => JObj (map (fun kv => (fst kv, dump_any (snd kv))) kvs)
  | _ => j
  end.

(** A field of a model under [exclude_none=True]: omitted when [None]. *)
Definition opt_field {A} (k : string) (f : A -> json) (o : option A) : pydict :=
  match o with
  | None => []
  | Some a => [(k, f a)]
  end.

Definition dump_dict (d : pydict) : json :=
  JObj (map (fun kv => (fst kv, dump_any (snd kv))) d).

Definition dump_user (u : UserContextInfo) : json :=
  JObj [("userId", JStr (userId u)); ("sessionId", JStr (sessionId u))].

Definition dump_summary (c : ContentSummary) : json :=
  JObj [("fields", JArr (map JStr (fields c))); ("recordCount", JInt (recordCount c))].

Definition dump_suggestion (s : SuggestedToolReference) : json :=
  JObj ([("toolType", JInt (ToolType_value (toolType s)))]
        ++ opt_field "toolNameHint" JStr (toolNameHint s)
        ++ opt_field "reason" JStr (reason s)
        ++ opt_field "parameters" dump_dict (parameters s)
        ++ opt_field "outputLabel" JStr (outputLabel s)).

Definition dump_metadata (m : ToolMetadata) : json :=
  JObj ([("dataType", JStr (dataType m));
         ("dataSize", JInt (dataSize m));
         ("intent", JStr (intent m));
         ("description", JStr (description m));
         ("accessibility", JStr (accessibility m));
         ("requiresPostProcessing", JBool (requiresPostProcessing m));
         ("suggestedTools", JArr (map dump_suggestion (suggestedTools m)))]
        ++ opt_field "contentSummary" dump_summary (contentSummary m)
        ++ [("confidence", dump_float (confidence m))]).

(** The [payload: Any] field: a [None] payload is a [None]-valued field,
    so [exclude_none] drops it like any other. *)
Definition payload_field (p : json) : pydict :=
  match p with
  | JNull => []
  | _ => [("payload", dump_any p)]
  end.

(** [model_dump_json(exclude_none=True)], as the JSON tree its text
    encodes (the JSON parser reads the text back into the same tree). *)
Definition to_json (r : ToolResult) : json :=
  JObj ([("toolResultId", JStr (toolResultId r));
         ("toolName", JStr (toolName r));
         ("timestamp", JStr (timestamp r))]
        ++ opt_field "conversationId" JStr (conversationId r)
        ++ opt_field "conversationMessageId" JStr (conversationMessageId r)
        ++ opt_field "userContext" dump_user (userContext r)
        ++ [("metadata", dump_metadata (metadata r))]
        ++ payload_field (payload r)
        ++ [("stepIndex", JInt (stepIndex r))]
        ++ opt_field "parentToolResultId" JStr (parentToolResultId r)).

(** Validation ([model_validate_json]).  The shapes accepted are the
    strict-typed ones the serializer produces; a missing field with a
    default takes the default, a missing required field is an error
    ([None]). *)
Fixpoint lookup (k : string) (kvs : pydict) : option json :=
  match kvs with
  | [] => None
  | (k', v) :: rest => if String.eqb k k' then Some v else lookup k rest
  end.

Fixpoint traverse {A B} (f : A -> option B) (xs : list A) : option (list B) :=
  match xs with
  | [] => Some []
  | x :: rest =>
      match f x, traverse f rest with
      | Some y, Some ys => Some (y :: ys)
      | _, _ => None
      end
  end.

Notation "'let?' x ':=' e 'in' k" :=
  (match e with Some x => k | None => None end)
  (at level 200, x name, e at level 100, k at level 200).

Definition v_str (j : json) : option string :=
  match j with JStr s => Some s | _ => None end.
Definition v_int (j : json) : option Z :=
  match j with JInt z => Some z | _ => None end.
Definition v_bool (j : json) : option bool :=
  match j with JBool b => Some b | _ => None end.
Definition v_float (j : json) : option pyfloat :=
  match j with JFloat f => Some f | _ => None end.
Definition v_dict (j : json) : option pydict :=
  match j with JObj kvs => Some kvs | _ => None end.
Definition v_list {A} (f : json -> option A) (j : json) : option (list A) :=
  match j with JArr xs => traverse f xs | _ => None end.
Definition v_tooltype (j : json) : option ToolType :=
  match j with JInt z => ToolType_of_value z | _ => None end.

(** required field *)
Definition f_req {A} (kvs : pydict) (k : string) (p : json -> option A) : option A :=
  match lookup k kvs with Some v => p v | None => None end.
(** field with a default *)
Definition f_def {A} (kvs : pydict) (k : string) (d : A) (p : json -> option A) : option A :=
  match lookup k kvs with Some v => p v | None => Some d end.
(** [Optional[...] = None] field *)
Definition f_opt {A} (kvs : pydict) (k : string) (p : json -> option A) : option (option A) :=
  match lookup k kvs with
  | None | Some JNull => Some None
  | Some v => option_map Some (p v)
  end.

Definition v_user (j : json) : option UserContextInfo :=
  let? kvs := v_dict j in
  let? u := f_def kvs "userId" ""%string v_str in
  let? s := f_def kvs "sessionId" ""%string v_str in
  Some {| userId := u; sessionId := s |}.

Definition v_summary (j : json) : option ContentSummary :=
  let? kvs := v_dict j in
  let? fs := f_def kvs "fields" [] (v_list v_str) in
  let? n := f_def kvs "recordCount" 0 v_int in
  Some {| fields := fs; recordCount := n |}.

Definition v_suggestion (j : json) : option SuggestedToolReference :=
  let? kvs := v_dict j in
  let? t := f_req kvs "toolType" v_tooltype in
  let? h := f_opt kvs "toolNameHint" v_str in
  let? r := f_opt kvs "reason" v_str in
  let? p := f_opt kvs "parameters" v_dict in
  let? o := f_opt kvs "outputLabel" v_str in
  Some {| toolType := t; toolNameHint := h; reason := r; parameters := p;
          outputLabel := o |}.

(** The code of the double [1.0], the default [confidence]. *)
Definition float_one : pyfloat := FFinite 1.

Definition v_metadata (j : json) : option ToolMetadata :=
  let? kvs := v_dict j in
  let? dt := f_def kvs "dataType" "application/json"%string v_str in
  let? ds := f_def kvs "dataSize" 0 v_int in
  let? it := f_req kvs "intent" v_str in
  let? de := f_req kvs "description" v_str in
  let? ac := f_def kvs "accessibility" "public"%string v_str in
  let? rp := f_def kvs "requiresPostProcessing" false v_bool in
  let? st := f_def kvs "suggestedTools" [] (v_list v_suggestion) in
  let? cs := f_opt kvs "contentSummary" v_summary in
  let? cf := f_def kvs "confidence" float_one v_float in
  Some {| dataType := dt; dataSize := ds; intent := it; description := de;
          accessibility := ac; requiresPostProcessing := rp;
          suggestedTools := st; contentSummary := cs; confidence := cf |}.

(** [ToolResult.model_validate]; [fresh_id] and [now] stand for the
    values of the [default_factory]s ([uuid4()] and [utcnow()]). *)
Definition model_validate (fresh_id now : string) (j : json) : option ToolResult :=
  let? kvs := v_dict j in
  let? i := f_def kvs "toolResultId" fresh_id v_str in
  let? n := f_req kvs "toolName" v_str in
  let? ts := f_def kvs "timestamp" now v_str in
  let? ci := f_opt kvs "conversationId" v_str in
  let? mi := f_opt kvs "conversationMessageId" v_str in
  let? uc := f_opt kvs "userContext" v_user in
  let? md := f_req kvs "metadata" v_metadata in
  let? pl := f_req kvs "payload" Some in
  let? si := f_def kvs "stepIndex" 0 v_int in
  let? pa := f_opt kvs "parentToolResultId" v_str in
  Some {| toolResultId := i; toolName := n; timestamp := ts;
          conversationId := ci; conversationMessageId := mi;
          userContext := uc; metadata := md; payload := pl;
          stepIndex := si; parentToolResultId := pa |}.

(** [ToolResult.from_json] *)
Definition from_json (fresh_id now : string) (j : json) : option ToolResult :=
  model_validate fresh_id now j.

(* ------------------------------------------------------------------ *)
(** ** Python helpers used by the engine *)

(** Truthiness ([if x:]) of a JSON-shaped value; the float code [0]
    stands for [0.0]. *)
Definition truthy (j : json) : bool :=
  match j with
  | JNull => false
  | JBool b => b
  | JInt z => negb (Z.eqb z 0)
  | JFloat (FFinite c) => negb (Z.eqb c 0)
  | JFloat _ => true
  | JStr s => negb (String.eqb s "")
  | JArr xs => match xs with [] => false | _ => true end
  | JObj kvs => match kvs with [] => false | _ => true end
  end.

(** [d[k] = v]: replaces the value in place, or appends a new key. *)
Fixpoint dict_set (d : pydict) (k : string) (v : json) : pydict :=
  match d with
  | [] => [(k, v)]
  | (k', v') :: rest =>
      if String.eqb k k' then (k', v) :: rest else (k', v') :: dict_set rest k v
  end.

(** [{**d, **e}] and [d.update(e)] for a mapping [e]. *)
Definition dict_merge (d e : pydict) : pydict :=
  fold_left (fun acc kv => dict_set acc (fst kv) (snd kv)) e d.

(** A Python exception, by class name and [str(e)]. *)
Record PyExc : Type := {
  exc_type : string;
  exc_msg : string
}.

(** One element of the iterable given to [dict.update]: a length-2
    iterable whose first item is the key.  Keys that are not [str] lie
    outside the [Dict[str, Any]] of the program and are not modelled. *)
Definition update_pair (e : json) : PyExc + (string * json) :=
  match e with
  | JArr [JStr k; v] => inr (k, v)
  | JStr (String a (String b EmptyString)) => inr (String a EmptyString, JStr (String b EmptyString))
  | JObj [(k1, _); (k2, _)] => inr (k1, JStr k2)
  | JInt _ | JBool _ | JFloat _ | JNull =>
      inl {| exc_type := "TypeError"; exc_msg := "cannot convert dictionary update sequence element to a sequence" |}
  | _ =>
      inl {| exc_type := "ValueError"; exc_msg := "dictionary update sequence element has the wrong length" |}
  end.

(** [params.update(payload)] *)
Definition py_update (params : pydict) (p : json) : PyExc + pydict :=
  match p with
  | JObj kvs => inr (dict_merge params kvs)
  | JArr xs =>
      fold_left (fun acc e =>
                   match acc with
                   | inl x => inl x
                   | inr d => match update_pair e with
                              | inl x => inl x
                              | inr (k, v) => inr (dict_set d k v)
                              end
                   end) xs (inr params)
  | JStr _ =>
      (* its first element is a one-character string *)
      inl {| exc_type := "ValueError"; exc_msg := "dictionary update sequence element #0 has the wrong length" |}
  | _ => inl {| exc_type := "TypeError"; exc_msg := "object is not iterable" |}
  end.

(** Decimal text of an integer, as [f"{n}"]. *)
Fixpoint dec_digits (fuel : nat) (n : Z) (acc : string) : string :=
  match fuel with
  | O => acc
  | S f =>
      let acc' := String (Ascii.ascii_of_nat (48 + Z.to_nat (n mod 10))) acc in
      if Z.ltb n 10 then acc' else dec_digits f (n / 10) acc'
  end.

Definition Z_to_dec (z : Z) : string :=
  if Z.ltb z 0 then "-" ++ dec_digits (S (Z.to_nat (Z.log2 (- z)))) (- z) ""
  else dec_digits (S (Z.to_nat (Z.log2 z))) z "".

Fixpoint last_opt {A} (xs : list A) : option A :=
  match xs with
  | [] => None
  | [x] => Some x
  | _ :: rest => last_opt rest
  end.

(* ------------------------------------------------------------------ *)
(** ** Execution context and the effect monad *)

(** [class ToolIntent] (the fields the executor reads). *)
Record ToolIntent : Type := {
  intent_name : string;
  method : string;
  endpoint : string
}.

(** The object [api_client.request] returns: its status code, what
    [response.json()] gives (or raises) and [response.text]. *)
Record Response : Type := {
  status_code : Z;
  json_body : PyExc + json;
  text : string
}.

Inductive Outcome : Type :=
| Returned (r : Response)
| Raised (e : PyExc).

(** [class ToolExecutionContext]; [execution_id], [start_time] and the
    unused [metadata] dict are left out. *)
Record Ctx : Type := {
  conversation_id : string;
  user_id : string;
  session_id : string;
  results : list ToolResult;
  errors : list pydict
}.

Definition new_context (conv user sess : string) : Ctx :=
  {| conversation_id := conv; user_id := user; session_id := sess;
     results := []; errors := [] |}.

(** [add_result] / [add_error]: list appends. *)
Definition ctx_add_result (c : Ctx) (r : ToolResult) : Ctx :=
  {| conversation_id := conversation_id c; user_id := user_id c;
     session_id := session_id c; results := results c ++ [r];
     errors := errors c |}.

Definition ctx_add_error (c : Ctx) (e : pydict) : Ctx :=
  {| conversation_id := conversation_id c; user_id := user_id c;
     session_id := session_id c; results := results c;
     errors := errors c ++ [e] |}.

(** [get_last_result] *)
Definition get_last_result (c : Ctx) : option ToolResult := last_opt (results c).

(** The part of [get_execution_summary] that does not read the clock. *)
Record Summary : Type := {
  sum_conversation_id : string;
  total_tools_executed : nat;
  sum_errors : nat;
  successful : bool;
  tool_chain : list string
}.

Definition get_execution_summary (c : Ctx) : Summary :=
  {| sum_conversation_id := conversation_id c;
     total_tools_executed := length (results c);
     sum_errors := length (errors c);
     successful := Nat.eqb (length (errors c)) 0;
     tool_chain := map toolName (results c) |}.

(** Machine state: the transport's world, the current execution context
    and the sequence of tool names [execute_tool] was called with. *)
Record St (W : Type) : Type := {
  world : W;
  ctx : Ctx;
  invoked : list string
}.
Arguments world {W}.
Arguments ctx {W}.
Arguments invoked {W}.

Inductive Res (A : Type) : Type :=
| Ok (a : A)
| Exc (e : PyExc).
Arguments Ok {A}.
Arguments Exc {A}.

(** State and exception monad: a coroutine either returns or raises. *)
Definition M (W A : Type) : Type := St W -> St W * Res A.

Definition ret {W A} (a : A) : M W A := fun s => (s, Ok a).

Definition bind {W A B} (m : M W A) (k : A -> M W B) : M W B :=
  fun s => let (s', r) := m s in
           match r with
           | Ok a => k a s'
           | Exc e => (s', Exc e)
           end.

Notation "x <- m ;; k" := (bind m (fun x => k))
  (at level 61, m at next level, right associativity).

Definition raise {W A} (e : PyExc) : M W A := fun s => (s, Exc e).

(** [try: m except Exception as e: h(e)] *)
Definition try_except {W A} (m : M W A) (h : PyExc -> M W A) : M W A :=
  fun s => let (s', r) := m s in
           match r with
           | Ok a => (s', Ok a)
           | Exc e => h e s'
           end.

Definition get_ctx {W} : M W Ctx := fun s => (s, Ok (ctx s)).

Definition modify_ctx {W} (f : Ctx -> Ctx) : M W unit :=
  fun s => ({| world := world s; ctx := f (ctx s); invoked := invoked s |}, Ok tt).

Definition add_result {W} (r : ToolResult) : M W unit := modify_ctx (fun c => ctx_add_result c r).
Definition add_error {W} (e : pydict) : M W unit := modify_ctx (fun c => ctx_add_error c e).

Definition note_call {W} (tool_name : string) : M W unit :=
  fun s => ({| world := world s; ctx := ctx s; invoked := invoked s ++ [tool_name] |}, Ok tt).

(* ------------------------------------------------------------------ *)
(** ** [tool_execution_engine.py] *)

Inductive ExecutionStrategy : Type :=
| SEQUENTIAL
| PARALLEL
| CONDITIONAL
| INTERACTIVE.

(** [self.max_chain_length] of a [ToolChainExecutor]. *)
Record ToolChainExecutor : Type := {
  max_chain_length : nat
}.

(** [ToolChainExecutor.__init__] *)
Definition new_ToolChainExecutor : ToolChainExecutor := {| max_chain_length := 10 |}.

(** A step of a workflow definition: ["tool"], ["params"] (absent is
    [None]) and ["required"] (every definition gives it). *)
Record WorkflowStep : Type := {
  step_tool : string;
  step_params : option pydict;
  step_required : bool
}.

Definition wstep (t : string) (req : bool) : WorkflowStep :=
  {| step_tool := t; step_params := None; step_required := req |}.

(** [self.workflows] of a [WorkflowEngine]. *)
Record WorkflowEngine : Type := {
  workflows : list (string * list WorkflowStep)
}.

(** [WorkflowEngine._define_workflows] *)
Definition define_workflows : list (string * list WorkflowStep) :=
  [("create_and_setup_repo",
     [wstep "create_repository" true; wstep "initialize_repository" true;
      wstep "generate_gitignore" false;
      {| step_tool := "add_file"; step_params := Some [("file_name", JStr "README.md")];
         step_required := false |};
      wstep "commit_changes" true; wstep "push_changes" true]);
   ("feature_development",
     [wstep "create_branch" true; wstep "add_multiple_files" true;
      wstep "commit_changes" true; wstep "push_changes" true;
      wstep "create_pull_request" true]);
   ("code_review",
     [wstep "list_pull_requests" true; wstep "review_changes" true;
      wstep "add_comments" false; wstep "approve_pr" true;
      wstep "merge_branches" true])].

Definition new_WorkflowEngine : WorkflowEngine := {| workflows := define_workflows |}.

Fixpoint wf_lookup (name : string) (t : list (string * list WorkflowStep)) : option (list WorkflowStep) :=
  match t with
  | [] => None
  | (n, steps) :: rest => if String.eqb name n then Some steps else wf_lookup name rest
  end.

(** The report dict [execute_workflow] returns. *)
Inductive WorkflowReport : Type :=
| WFFailed (workflow failed_step : string) (completed_steps : list string) (errs : list pydict)
| WFCompleted (workflow : string) (steps_executed : nat) (results : list ToolResult) (summary : Summary).

(** The dict [execute_request] returns. *)
Inductive RequestReport : Type :=
| ReqNotUnderstood (suggestions : list string)
| ReqInitialFailed (context : Summary)
| ReqCompleted (initial_tool : string) (chain_executed : bool) (total_tools : nat)
               (execution_summary : Summary) (final_result : option ToolResult).

(** Python truthiness of [suggestion.toolNameHint]: [None] and [""] are
    false. *)
Definition hint (s : SuggestedToolReference) : option string :=
  match toolNameHint s with
  | Some h => if String.eqb h "" then None else Some h
  | None => None
  end.

(** [suggestion.parameters or {}] *)
Definition params_or_empty (s : SuggestedToolReference) : pydict :=
  match parameters s with
  | Some d => d
  | None => []
  end.

(** [conversation_id or fresh]: a missing or empty id is replaced. *)
Definition or_fresh (conversation_id : option string) (fresh : string) : string :=
  match conversation_id with
  | Some c => if String.eqb c "" then fresh else c
  | None => fresh
  end.

Section Engine.

Context {W : Type}.

(** [IntentClassifier.get_intent_by_name], i.e. [INTENT_CLASSIFICATIONS.get]. *)
Variable get_intent_by_name : string -> option ToolIntent.
(** [self.api_client.request(method, endpoint, data, headers)]; the
    fresh [X-Message-ID] is left to the transport. *)
Variable request : W -> string -> string -> pydict -> list (string * string) -> W * Outcome.
(** The values of [ToolResult]'s [default_factory]s. *)
Variables fresh_id now : string.

Definition api_request (m e : string) (data : pydict) (headers : list (string * string)) : M W Response :=
  fun s => let (w', out) := request (world s) m e data headers in
           let s' := {| world := w'; ctx := ctx s; invoked := invoked s |} in
           match out with
           | Returned r => (s', Ok r)
           | Raised x => (s', Exc x)
           end.

Definition validation_error : PyExc :=
  {| exc_type := "ValidationError"; exc_msg := "validation error for ToolResult" |}.

(** The correlation headers built from the context. *)
Definition request_headers (c : Ctx) : list (string * string) :=
  [("X-Conversation-ID", conversation_id c);
   ("X-User-ID", user_id c);
   ("X-Session-ID", session_id c)].

(** [ToolExecutor.execute_tool] *)
Definition execute_tool (tool_name : string) (parameters : pydict) : M W (option ToolResult) :=
  _ <- note_call tool_name ;;
  try_except
    (match get_intent_by_name tool_name with
     | None => raise {| exc_type := "ValueError"; exc_msg := "Unknown tool: " ++ tool_name |}
     | Some it =>
         c <- get_ctx ;;
         let headers := request_headers c in
         response <- api_request (method it) (endpoint it) parameters headers ;;
         if Z.eqb (status_code response) 200 then
           j <- (match json_body response with
                 | inl x => raise x
                 | inr j => ret j
                 end) ;;
           result <- (match model_validate fresh_id now j with
                      | Some r => ret r
                      | None => raise validation_error
                      end) ;;
           _ <- add_result result ;;
           ret (Some result)
         else
           _ <- add_error [("tool", JStr tool_name);
                           ("error", JStr ("HTTP " ++ Z_to_dec (status_code response)));
                           ("details", JStr (text response))] ;;
           ret None
     end)
    (fun e =>
       _ <- add_error [("tool", JStr tool_name);
                       ("error", JStr (exc_msg e));
                       ("type", JStr (exc_type e))] ;;
       ret None).

(** [ToolChainExecutor._execute_sequential] *)
Fixpoint execute_sequential (suggested_tools : list SuggestedToolReference) : M W (list ToolResult) :=
  match suggested_tools with
  | [] => ret []
  | suggestion :: rest =>
      match hint suggestion with
      | None => execute_sequential rest
      | Some tool_name =>
          result <- execute_tool tool_name (params_or_empty suggestion) ;;
          match result with
          | Some r =>
              if requiresPostProcessing (metadata r) then
                rs <- execute_sequential rest ;; ret (r :: rs)
              else ret [r]
          | None => execute_sequential rest
          end
      end
  end.

(** [suggestion.toolType in [ToolType.RETRIEVER, ToolType.ANALYZER] and
    suggestion.toolNameHint] *)
Definition parallel_eligible (s : SuggestedToolReference) : bool :=
  match toolType s, hint s with
  | RETRIEVER, Some _ | ANALYZER, Some _ => true
  | _, _ => false
  end.

(** [suggestion.toolNameHint] of an eligible suggestion. *)
Definition hint_name (s : SuggestedToolReference) : string :=
  match hint s with Some h => h | None => "" end.

(** [asyncio.gather] over the tasks: the results come back in task
    order.  The model runs the tasks one after the other in that order,
    which is one of the schedules the event loop may take. *)
Fixpoint gather (tasks : list SuggestedToolReference) : M W (list (option ToolResult)) :=
  match tasks with
  | [] => ret []
  | s :: rest =>
      r <- execute_tool (hint_name s) (params_or_empty s) ;;
      rs <- gather rest ;;
      ret (r :: rs)
  end.

Fixpoint somes {A} (xs : list (option A)) : list A :=
  match xs with
  | [] => []
  | Some x :: rest => x :: somes rest
  | None :: rest => somes rest
  end.

(** [ToolChainExecutor._execute_parallel] *)
Definition execute_parallel (suggested_tools : list SuggestedToolReference) : M W (list ToolResult) :=
  let tasks := filter parallel_eligible suggested_tools in
  match tasks with
  | [] => ret []
  | _ => rs <- gather tasks ;; ret (somes rs)
  end.

(** [ToolChainExecutor._evaluate_condition] *)
Definition evaluate_condition (suggestion : SuggestedToolReference) (c : Ctx) : bool :=
  match get_last_result c with
  | None => true
  | Some last_result =>
      if ToolType_eqb (toolType suggestion) MODIFIER
         && negb (requiresPostProcessing (metadata last_result)) then false
      else if ToolType_eqb (toolType suggestion) VALIDATOR then true
      (* the ["if" in reason.lower()] test and the fall-through both
         return [True] *)
      else true
  end.

(** [ToolChainExecutor._execute_conditional] *)
Fixpoint execute_conditional (suggested_tools : list SuggestedToolReference) : M W (list ToolResult) :=
  match suggested_tools with
  | [] => ret []
  | suggestion :: rest =>
      c <- get_ctx ;;
      let should_execute := evaluate_condition suggestion c in
      match should_execute, hint suggestion with
      | true, Some tool_name =>
          result <- execute_tool tool_name (params_or_empty suggestion) ;;
          rs <- execute_conditional rest ;;
          ret (match result with Some r => r :: rs | None => rs end)
      | _, _ => execute_conditional rest
      end
  end.

Definition run_strategy (strategy : ExecutionStrategy) (suggested_tools : list SuggestedToolReference) : M W (list ToolResult) :=
  match strategy with
  | SEQUENTIAL => execute_sequential suggested_tools
  | PARALLEL => execute_parallel suggested_tools
  | CONDITIONAL => execute_conditional suggested_tools
  | INTERACTIVE => ret []
  end.

(** The [while current_result and chain_length < self.max_chain_length]
    loop of [execute_chain].  [current_result] is never [None] there (it
    is the initial result or the last item of a non-empty batch).  [fuel]
    bounds the number of iterations the model will run; [None] means it
    ran out before the loop left by its own guard or a [break]. *)
Fixpoint chain_loop (fuel : nat) (ex : ToolChainExecutor) (strategy : ExecutionStrategy)
         (filter_func : option (SuggestedToolReference -> bool))
         (current_result : ToolResult) (chain_length : nat) (results : list ToolResult)
  : M W (option (list ToolResult * nat)) :=
  if Nat.ltb chain_length (max_chain_length ex) then
    match fuel with
    | O => ret None
    | S fuel' =>
        match suggestedTools (metadata current_result) with
        | [] => ret (Some (results, chain_length))
        | suggested_tools =>
            let suggested_tools :=
              match filter_func with
              | Some f => filter f suggested_tools
              | None => suggested_tools
              end in
            match suggested_tools with
            | [] => ret (Some (results, chain_length))
            | _ =>
                next_results <- run_strategy strategy suggested_tools ;;
                match last_opt next_results with
                | None => ret (Some (results, chain_length))
                | Some last_result =>
                    chain_loop fuel' ex strategy filter_func last_result
                               (S chain_length) (results ++ next_results)
                end
            end
        end
    end
  else ret (Some (results, chain_length)).

(** [execute_chain] with a bound on the iterations the model runs; the
    loop's final [chain_length] is returned next to [results]. *)
Definition execute_chain_fuel (fuel : nat) (ex : ToolChainExecutor) (initial_result : ToolResult)
           (strategy : ExecutionStrategy) (filter_func : option (SuggestedToolReference -> bool))
  : M W (option (list ToolResult * nat)) :=
  _ <- add_result initial_result ;;
  chain_loop fuel ex strategy filter_func initial_result 0 [initial_result].

(** [ToolChainExecutor.execute_chain]: [max_chain_length] iterations of
    fuel are always enough (theorem [execute_chain_terminates]). *)
Definition execute_chain (ex : ToolChainExecutor) (initial_result : ToolResult)
           (strategy : ExecutionStrategy) (filter_func : option (SuggestedToolReference -> bool))
  : M W (list ToolResult) :=
  r <- execute_chain_fuel (max_chain_length ex) ex initial_result strategy filter_func ;;
  ret (match r with Some (rs, _) => rs | None => [] end).

(** [step.get("params", {})] *)
Definition step_params_or_empty (step : WorkflowStep) : pydict :=
  match step_params step with Some d => d | None => [] end.

(** [if result.payload: params.update(result.payload)] *)
Definition merge_payload (params : pydict) (p : json) : PyExc + pydict :=
  if truthy p then py_update params p else inr params.

(** The [for step in workflow] loop of [execute_workflow]. *)
Fixpoint run_steps (workflow_name : string) (steps : list WorkflowStep)
         (results : list ToolResult) (params : pydict) : M W WorkflowReport :=
  match steps with
  | [] =>
      c <- get_ctx ;;
      ret (WFCompleted workflow_name (length results) results (get_execution_summary c))
  | step :: rest =>
      let tool_name := step_tool step in
      let required := step_required step in
      let step_params' := dict_merge params (step_params_or_empty step) in
      result <- execute_tool tool_name step_params' ;;
      match result with
      | Some r =>
          params' <- (match merge_payload params (payload r) with
                      | inl x => raise x
                      | inr d => ret d
                      end) ;;
          run_steps workflow_name rest (results ++ [r]) params'
      | None =>
          if required then
            c <- get_ctx ;;
            ret (WFFailed workflow_name tool_name (map toolName results) (errors c))
          else run_steps workflow_name rest results params
      end
  end.

(** [WorkflowEngine.execute_workflow] *)
Definition execute_workflow (engine : WorkflowEngine) (workflow_name : string)
           (initial_params : pydict) : M W WorkflowReport :=
  match wf_lookup workflow_name (workflows engine) with
  | None => raise {| exc_type := "ValueError"; exc_msg := "Unknown workflow: " ++ workflow_name |}
  | Some workflow => run_steps workflow_name workflow [] initial_params
  end.

(** [IntentClassifier.classify_intent] (the keyword matcher) and the keys
    of [INTENT_CLASSIFICATIONS]. *)
Variable classify_intent : string -> option ToolIntent.
Variable intent_names : list string.
(** [f"conv-{uuid.uuid4()}"] and [f"session-{uuid.uuid4()}"] *)
Variables fresh_conv fresh_session : string.

Definition set_ctx (c : Ctx) : M W unit := modify_ctx (fun _ => c).

(** [ToolOrchestrator.execute_request] (with [_extract_parameters]
    returning [{}]). *)
Definition execute_request (user_request user_id : string) (conversation_id : option string)
  : M W RequestReport :=
  let conv := or_fresh conversation_id fresh_conv in
  _ <- set_ctx (new_context conv user_id fresh_session) ;;
  match classify_intent user_request with
  | None => ret (ReqNotUnderstood intent_names)
  | Some it =>
      let parameters := [] in
      initial_result <- execute_tool (intent_name it) parameters ;;
      match initial_result with
      | None => c <- get_ctx ;; ret (ReqInitialFailed (get_execution_summary c))
      | Some ir =>
          _ <- (if requiresPostProcessing (metadata ir) then
                  _ <- execute_chain new_ToolChainExecutor ir SEQUENTIAL None ;; ret tt
                else ret tt) ;;
          c <- get_ctx ;;
          ret (ReqCompleted (toolName ir) (Nat.ltb 1 (length (results c)))
                            (length (results c)) (get_execution_summary c)
                            (get_last_result c))
      end
  end.

(** [ToolOrchestrator.execute_workflow] *)
Definition orchestrator_execute_workflow (workflow_name : string) (params : pydict)
           (user_id : string) (conversation_id : option string) : M W WorkflowReport :=
  let conv := or_fresh conversation_id fresh_conv in
  _ <- set_ctx (new_context conv user_id fresh_session) ;;
  execute_workflow new_WorkflowEngine workflow_name params.

End Engine.

(* ------------------------------------------------------------------ *)
(** ** Predicates used in the statements *)

(** No NaN or infinity anywhere in a JSON-shaped value. *)
Fixpoint json_finite (j : json) : bool :=
  match j with
  | JFloat (FFinite _) => true
  | JFloat _ => false
  | JArr xs => forallb json_finite xs
  | JObj kvs => forallb (fun kv => json_finite (snd kv)) kvs
  | _ => true
  end.

Definition dict_finite (d : pydict) : bool := forallb (fun kv => json_finite (snd kv)) d.

Definition suggestion_finite (s : SuggestedToolReference) : bool :=
  match parameters s with
  | Some d => dict_finite d
  | None => true
  end.

Definition float_finite (f : pyfloat) : bool :=
  match f with FFinite _ => true | _ => false end.

Definition metadata_finite (m : ToolMetadata) : bool :=
  float_finite (confidence m) && forallb suggestion_finite (suggestedTools m).

(** Every float a [ToolResult] holds is finite. *)
Definition result_finite (r : ToolResult) : bool :=
  metadata_finite (metadata r) && json_finite (payload r).

(** The error entry of the [except Exception as e] branch of
    [execute_tool]. *)
Definition exc_entry (tool_name : string) (x : PyExc) : pydict :=
  [("tool", JStr tool_name); ("error", JStr (exc_msg x)); ("type", JStr (exc_type x))].

(** The error entry [execute_tool] records for a non-200 response. *)
Definition http_entry (tool_name : string) (resp : Response) : pydict :=
  [("tool", JStr tool_name);
   ("error", JStr ("HTTP " ++ Z_to_dec (status_code resp)));
   ("details", JStr (text resp))].

Fixpoint count_none {A} (xs : list (option A)) : nat :=
  match xs with
  | [] => O
  | None :: rest => S (count_none rest)
  | Some _ :: rest => count_none rest
  end.

(** The Conditional policy in the words of the design: a Validator
    always runs; a Modifier is skipped when the most recent result in the
    context did not request post-processing; any other type runs. *)
Definition conditional_policy (s : SuggestedToolReference) (c : Ctx) : bool :=
  match toolType s with
  | VALIDATOR => true
  | MODIFIER =>
      match get_last_result c with
      | Some last_result => requiresPostProcessing (metadata last_result)
      | None => true
      end
  | _ => true
  end.

(** The suggestions [execute_chain] hands to its strategy in its first
    iteration. *)
Definition filtered_suggestions (filter_func : option (SuggestedToolReference -> bool))
           (r : ToolResult) : list SuggestedToolReference :=
  match filter_func with
  | Some f => filter f (suggestedTools (metadata r))
  | None => suggestedTools (metadata r)
  end.

(** The tool names hinted by a batch, in order. *)
Definition hinted_names (ss : list SuggestedToolReference) : list string :=
  flat_map (fun sg => match hint sg with Some h => [h] | None => [] end) ss.

Definition all_optional (steps : list WorkflowStep) : bool :=
  forallb (fun st => negb (step_required st)) steps.

(** [c'] is [c] with [rs] appended to [results] and some entries appended
    to [errors]. *)
Definition ctx_extends (c c' : Ctx) (rs : list ToolResult) : Prop :=
  results c' = (results c ++ rs)%list
  /\ exists errs, errors c' = (errors c ++ errs)%list.

(** [subseq xs ys]: [xs] is [ys] with some items left out. *)
Inductive subseq {A : Type} : list A -> list A -> Prop :=
| subseq_nil : subseq [] []
| subseq_keep x xs ys : subseq xs ys -> subseq (x :: xs) (x :: ys)
| subseq_skip x xs ys : subseq xs ys -> subseq xs (x :: ys).

(* ------------------------------------------------------------------ *)
(** ** [intent_classification.py]: the keyword matcher *)

(** Python's [needle in haystack] on strings. *)
Fixpoint str_in (needle hay : string) : bool :=
  if String.prefix needle hay then true
  else match hay with
       | EmptyString => false
       | String _ rest => str_in needle rest
       end.

(** A key of [keyword_intent_map]: a tuple of keywords, or a plain string
    such as [("gitignore")], which the parentheses do not turn into a
    tuple. *)
Inductive KeywordKey : Type :=
| KTuple (keywords : list string)
| KStr (s : string).

(** [for keyword in s] over a string: its one-character strings. *)
Fixpoint str_chars (s : string) : list string :=
  match s with
  | EmptyString => []
  | String c rest => String c EmptyString :: str_chars rest
  end.

(** [for keyword in keywords] *)
Definition keyword_items (k : KeywordKey) : list string :=
  match k with
  | KTuple ks => ks
  | KStr s => str_chars s
  end.

(** [keyword_intent_map], in insertion order. *)
Definition keyword_intent_map : list (KeywordKey * string) :=
  [(KTuple ["create"; "repository"; "repo"], "create_repository");
   (KTuple ["create"; "github"; "repo"], "create_repository");
   (KTuple ["initialize"; "git"], "initialize_repository");
   (KTuple ["init"; "repo"], "initialize_repository");
   (KTuple ["clone"; "repository"], "clone_repository");
   (KTuple ["clone"; "github"], "clone_repository");
   (KTuple ["create"; "branch"], "create_branch");
   (KTuple ["new"; "branch"], "create_branch");
   (KTuple ["list"; "branch"], "list_branches");
   (KTuple ["show"; "branch"], "list_branches");
   (KTuple ["merge"; "branch"], "merge_branches");
   (KTuple ["merge"; "into"], "merge_branches");
   (KTuple ["add"; "file"], "add_file");
   (KTuple ["create"; "file"], "add_file");
   (KTuple ["add"; "multiple"; "files"], "add_multiple_files");
   (KTuple ["add"; "files"], "add_multiple_files");
   (KTuple ["list"; "files"], "list_files");
   (KTuple ["show"; "files"], "list_files");
   (KTuple ["read"; "file"], "read_file");
   (KTuple ["show"; "content"], "read_file");
   (KStr "gitignore", "generate_gitignore");
   (KTuple ["commit"; "change"], "commit_changes");
   (KTuple ["commit"; "message"], "commit_changes");
   (KTuple ["push"; "change"], "push_changes");
   (KTuple ["push"; "github"], "push_changes");
   (KTuple ["stage"; "all"], "stage_all_changes");
   (KTuple ["add"; "all"], "stage_all_changes");
   (KTuple ["create"; "issue"], "create_issue");
   (KTuple ["open"; "issue"], "create_issue");
   (KTuple ["create"; "pull"; "request"], "create_pull_request");
   (KTuple ["create"; "pr"], "create_pull_request");
   (KTuple ["list"; "repo"], "list_repositories");
   (KTuple ["show"; "repo"], "list_repositories");
   (KTuple ["setup"; "credential"], "setup_credentials");
   (KTuple ["configure"; "github"], "setup_credentials");
   (KTuple ["set"; "credential"], "setup_credentials");
   (KStr "status", "check_status");
   (KTuple ["git"; "status"], "check_status")].

(** The [for keywords, intent_name in keyword_intent_map.items()] loop:
    the first entry whose keywords all occur in the query. *)
Fixpoint match_keywords (query_lower : string) (m : list (KeywordKey * string)) : option string :=
  match m with
  | [] => None
  | (keywords, intent_name) :: rest =>
      if forallb (fun keyword => str_in keyword query_lower) (keyword_items keywords)
      then Some intent_name
      else match_keywords query_lower rest
  end.

Section Classifier.

(** [str.lower] *)
Variable lower : string -> string.
(** [INTENT_CLASSIFICATIONS.get] *)
Variable intent_get : string -> option ToolIntent.

(** [IntentClassifier.classify_intent] *)
Definition classify_intent (user_query : string) : option ToolIntent :=
  let query_lower := lower user_query in
  match match_keywords query_lower keyword_intent_map with
  | Some intent_name => intent_get intent_name
  | None => None
  end.

End Classifier.

(* ------------------------------------------------------------------ *)
(** ** Concrete values *)

Definition meta (rpp : bool) (sugg : list SuggestedToolReference) : ToolMetadata :=
  {| dataType := "application/json"; dataSize := 0; intent := "intent";
     description := "done"; accessibility := "public";
     requiresPostProcessing := rpp; suggestedTools := sugg;
     contentSummary := None; confidence := float_one |}.

Definition mk_result (name : string) (rpp : bool) (sugg : list SuggestedToolReference)
           (pl : json) : ToolResult :=
  {| toolResultId := "id-" ++ name; toolName := name;
     timestamp := "2024-01-01T00:00:00"; conversationId := Some "conv-1";
     conversationMessageId := None;
     userContext := Some {| userId := "u"; sessionId := "s" |};
     metadata := meta rpp sugg; payload := pl; stepIndex := 0;
     parentToolResultId := None |}.

Definition sugg (t : ToolType) (name : string) : SuggestedToolReference :=
  {| toolType := t; toolNameHint := Some name; reason := None;
     parameters := None; outputLabel := None |}.

(** A result as [build_tool_result(..., payload=None)] builds it. *)
Definition result_none_payload : ToolResult := mk_result "list_files" false [] JNull.

Definition result_obj_payload : ToolResult :=
  mk_result "list_files" false [sugg ANALYZER "read_file"] (JObj [("files", JArr [JStr "a.txt"])]).

(** Some entries of [INTENT_CLASSIFICATIONS]. *)
Definition demo_intents : list ToolIntent :=
  [{| intent_name := "create_repository"; method := "POST"; endpoint := "/github/create-repo" |};
   {| intent_name := "initialize_repository"; method := "POST"; endpoint := "/repos/init" |};
   {| intent_name := "list_files"; method := "GET"; endpoint := "/repos/list-files/{repo_path}" |};
   {| intent_name := "read_file"; method := "GET"; endpoint := "/repos/read-file/{repo_path}/{file_name}" |};
   {| intent_name := "check_status"; method := "GET"; endpoint := "/repos/status/{repo_path}" |}].

Definition demo_registry (name : string) : option ToolIntent :=
  find (fun it => String.eqb (intent_name it) name) demo_intents.

(** A transport answering by endpoint. *)
Definition by_endpoint (f : string -> Outcome)
  : unit -> string -> string -> pydict -> list (string * string) -> unit * Outcome :=
  fun w _ e _ _ => (w, f e).

Definition respond (code : Z) (r : ToolResult) : Outcome :=
  Returned {| status_code := code; json_body := inr (to_json r); text := "" |}.

Definition server_error : Outcome :=
  Returned {| status_code := 500; json_body := inr (JObj [("detail", JStr "boom")]);
              text := "Internal Server Error" |}.

Definition st0 : St unit :=
  {| world := tt; ctx := new_context "conv-1" "u" "s"; invoked := [] |}.

(** A result that re-suggests the tool that produced it. *)
Definition cyc_result : ToolResult :=
  mk_result "list_files" true [sugg RETRIEVER "list_files"] (JObj [("files", JArr [])]).

Definition cyc_transport := by_endpoint (fun _ => respond 200 cyc_result).

(** What the [/github/create-repo] endpoint returns. *)
Definition repo_result : ToolResult :=
  mk_result "create_github_repository" false [] (JObj [("repo_name", JStr "demo")]).

Definition create_repo_transport :=
  by_endpoint (fun e => if String.eqb e "/github/create-repo" then respond 201 repo_result
                        else server_error).

Definition setup_transport :=
  by_endpoint (fun e => if String.eqb e "/github/create-repo" then respond 200 repo_result
                        else server_error).

Definition pp_result : ToolResult :=
  mk_result "list_files" true [] (JObj [("files", JArr [JStr "a.txt"])]).

Definition pp_transport := by_endpoint (fun _ => respond 200 pp_result).

Definition demo_classify (q : string) : option ToolIntent :=
  if String.eqb q "list files" then demo_registry "list_files" else None.

Definition three_step_engine : WorkflowEngine :=
  {| workflows := [("three_step", [wstep "list_files" true; wstep "read_file" true;
                                   wstep "check_status" true])] |}.

Definition list_then_fail_transport :=
  by_endpoint (fun e => if String.eqb e "/repos/list-files/{repo_path}" then respond 200 pp_result
                        else server_error).

Definition list_files_done_transport := by_endpoint (fun _ => respond 200 result_obj_payload).

Definition optional_engine : WorkflowEngine :=
  {| workflows := [("optional_only", [wstep "list_files" false; wstep "read_file" false])] |}.

(** A tool answering a result whose payload is a plain string. *)
Definition scalar_payload_transport :=
  by_endpoint (fun _ => respond 200 (mk_result "list_files" false [] (JStr "done"))).

(* ================================================================== *)
(** * Proofs *)

(** ** Serialization round trip *)

Lemma dump_any_finite : forall j, json_finite j = true -> dump_any j = j.
Proof.
  fix IH 1. intros j H.
  destruct j as [| b | z | f | s | xs | kvs]; simpl in *; try reflexivity.
  - destruct f; try discriminate; reflexivity.
  - f_equal. induction xs as [| x xs IHxs]; simpl in *; [reflexivity |].
    apply andb_true_iff in H as [H1 H2]. rewrite (IH x H1), (IHxs H2). reflexivity.
  - f_equal. induction kvs as [| [k v] kvs IHkvs]; simpl in *; [reflexivity |].
    apply andb_true_iff in H as [H1 H2]. rewrite (IH v H1), (IHkvs H2). reflexivity.
Qed.

Lemma dump_dict_items (d : pydict) :
  dict_finite d = true -> map (fun kv => (fst kv, dump_any (snd kv))) d = d.
Proof.
  unfold dict_finite. intros H.
  induction d as [| [k v] d IHd]; simpl in *; [reflexivity |].
  apply andb_true_iff in H as [H1 H2].
  rewrite (dump_any_finite v H1), (IHd H2). reflexivity.
Qed.

Lemma traverse_str (l : list string) : traverse v_str (map JStr l) = Some l.
Proof. induction l as [| x l IHl]; simpl; [reflexivity | now rewrite IHl]. Qed.

Lemma v_tooltype_value (t : ToolType) : v_tooltype (JInt (ToolType_value t)) = Some t.
Proof. destruct t; reflexivity. Qed.

Lemma v_suggestion_dump (s : SuggestedToolReference) :
  suggestion_finite s = true -> v_suggestion (dump_suggestion s) = Some s.
Proof.
  destruct s as [t h r p o]; unfold suggestion_finite; simpl. intros Hp.
  unfold v_suggestion, dump_suggestion, f_req, f_opt; simpl.
  replace (ToolType_of_value (ToolType_value t)) with (Some t) by (destruct t; reflexivity).
  destruct h, r, o, p as [p |]; simpl;
    try (rewrite (dump_dict_items p Hp)); reflexivity.
Qed.

Lemma traverse_suggestion (l : list SuggestedToolReference) :
  forallb suggestion_finite l = true ->
  traverse v_suggestion (map dump_suggestion l) = Some l.
Proof.
  induction l as [| s l IHl]; simpl; [reflexivity |].
  intros H. apply andb_true_iff in H as [H1 H2].
  rewrite (v_suggestion_dump s H1), (IHl H2). reflexivity.
Qed.

Lemma v_metadata_dump (m : ToolMetadata) :
  metadata_finite m = true -> v_metadata (dump_metadata m) = Some m.
Proof.
  destruct m as [dt ds it de ac rp st cs cf]; unfold metadata_finite; simpl.
  intros H. apply andb_true_iff in H as [Hf Hs].
  unfold v_metadata, dump_metadata, f_req, f_def, f_opt; simpl.
  destruct cf; try discriminate.
  destruct cs as [[fs n] |]; simpl;
    rewrite (traverse_suggestion st Hs); unfold v_summary, dump_summary, f_def; simpl;
    try rewrite traverse_str; reflexivity.
Qed.

Lemma payload_field_present (p : json) :
  p <> JNull -> json_finite p = true -> payload_field p = [("payload", p)].
Proof.
  intros Hn Hf. destruct p; try (exfalso; now apply Hn);
    unfold payload_field; now rewrite (dump_any_finite _ Hf).
Qed.

Lemma v_user_dump (u : UserContextInfo) : v_user (dump_user u) = Some u.
Proof. destruct u; reflexivity. Qed.

(** C9 (amended): a [ToolResult] whose payload and suggestion parameter
    values are JSON-shaped (see [json]), whose payload is not [None] and
    that holds no NaN or infinite float is read back by [from_json] from
    its [to_json] text field for field: identifiers, timestamp, metadata
    (with every suggestion) and payload. *)
Theorem to_json_from_json_roundtrip (fresh_id now : string) (r : ToolResult) :
  payload r <> JNull ->
  result_finite r = true ->
  from_json fresh_id now (to_json r) = Some r.
Proof.
  destruct r as [i n ts ci mi uc md pl si pa].
  intros Hn Hf. unfold result_finite in Hf; simpl in Hn, Hf.
  apply andb_true_iff in Hf as [Hm Hp].
  unfold from_json, model_validate, to_json; simpl payload.
  rewrite (payload_field_present pl Hn Hp).
  unfold f_def, f_req, f_opt.
  destruct ci, mi, uc, pa;
    cbn -[dump_metadata v_metadata dump_user v_user];
    rewrite (v_metadata_dump md Hm); try rewrite v_user_dump;
    destruct pl; try (exfalso; now apply Hn); reflexivity.
Qed.

(** C9 (counterexample): a [ToolResult] with payload [None] is written
    without its [payload] field, and [from_json] rejects the text since
    [payload] is a required field. *)
Lemma to_json_from_json_payload_none :
  from_json "fresh" "now" (to_json result_none_payload) = None
  /\ from_json "fresh" "now" (to_json result_none_payload) <> Some result_none_payload.
Proof. split; [reflexivity | discriminate]. Qed.

Lemma to_json_from_json_roundtrip_witness :
  (payload result_obj_payload <> JNull /\ result_finite result_obj_payload = true)
  /\ from_json "fresh" "now" (to_json result_obj_payload) = Some result_obj_payload.
Proof.
  split; [split; [discriminate | reflexivity] |].
  apply (to_json_from_json_roundtrip "fresh" "now" result_obj_payload);
    [discriminate | reflexivity].
Defined.

(** ** Derived status *)

(** C10: [status] is [Processing] exactly when
    [metadata.requiresPostProcessing] is true, [Complete] otherwise, and
    never [Failed]. *)
Theorem status_never_failed (r : ToolResult) :
  (status r = Processing <-> requiresPostProcessing (metadata r) = true)
  /\ (status r = Complete <-> requiresPostProcessing (metadata r) = false)
  /\ status r <> Failed.
Proof.
  unfold status. destruct (requiresPostProcessing (metadata r));
    repeat split; intros; try discriminate; reflexivity.
Qed.


(** ** The tool executor *)

Section Executor.

Context {W : Type}.
Variable get_intent_by_name : string -> option ToolIntent.
Variable request : W -> string -> string -> pydict -> list (string * string) -> W * Outcome.
Variables fresh_id now : string.

(** Every call of [execute_tool] is logged once, never raises, and
    appends either its result or one error entry. *)
Lemma execute_tool_step (tool_name : string) (params : pydict) (s : St W) :
  let '(s', r) := execute_tool get_intent_by_name request fresh_id now tool_name params s in
  invoked s' = (invoked s ++ [tool_name])%list /\
  match r with
  | Ok (Some x) => ctx s' = ctx_add_result (ctx s) x
  | Ok None => exists e, ctx s' = ctx_add_error (ctx s) e
  | Exc _ => False
  end.
Proof.
  destruct s as [w c inv].
  unfold execute_tool, note_call, try_except, bind, get_ctx, api_request, ret, raise,
    add_result, add_error, modify_ctx; cbn.
  destruct (get_intent_by_name tool_name) as [it |].
  - match goal with |- context[request ?a ?b ?c ?d ?e] =>
      destruct (request a b c d e) as [w' [resp | x]] end.
    + destruct (Z.eqb (status_code resp) 200);
        [destruct (json_body resp) as [x | j];
         [| destruct (model_validate fresh_id now j)] |];
        cbn; split; eauto.
    + cbn; split; eauto.
  - cbn; split; eauto.
Qed.

(** C4 (amended): [execute_tool] never raises.  It returns a result, and
    appends exactly that result to [context.results], only when the tool
    is registered and the transport answers status 200 with a body that
    parses and validates as a [ToolResult].  Otherwise it returns [None]
    and appends exactly one entry to [context.errors]: [{tool, error:
    "HTTP <code>", details}] for any other status (2xx ones included), or
    [{tool, error, type}] when the tool is unknown, the transport raises
    or the body does not parse or validate. *)
Theorem execute_tool_contract (tool_name : string) (params : pydict) (s : St W) :
  let '(s', r) := execute_tool get_intent_by_name request fresh_id now tool_name params s in
  invoked s' = (invoked s ++ [tool_name])%list /\
  match get_intent_by_name tool_name with
  | None =>
      world s' = world s /\ r = Ok None /\
      ctx s' = ctx_add_error (ctx s)
                 (exc_entry tool_name {| exc_type := "ValueError";
                                         exc_msg := "Unknown tool: " ++ tool_name |})
  | Some it =>
      let (w', out) := request (world s) (method it) (endpoint it) params (request_headers (ctx s)) in
      world s' = w' /\
      match out with
      | Raised x => r = Ok None /\ ctx s' = ctx_add_error (ctx s) (exc_entry tool_name x)
      | Returned resp =>
          if Z.eqb (status_code resp) 200 then
            match json_body resp with
            | inl x => r = Ok None /\ ctx s' = ctx_add_error (ctx s) (exc_entry tool_name x)
            | inr j =>
                match model_validate fresh_id now j with
                | Some x => r = Ok (Some x) /\ ctx s' = ctx_add_result (ctx s) x
                | None =>
                    r = Ok None /\
                    exists x, exc_type x = "ValidationError"
                              /\ ctx s' = ctx_add_error (ctx s) (exc_entry tool_name x)
                end
            end
          else r = Ok None /\ ctx s' = ctx_add_error (ctx s) (http_entry tool_name resp)
      end
  end.
Proof.
  destruct s as [w c inv].
  unfold execute_tool, note_call, try_except, bind, get_ctx, api_request, ret, raise,
    add_result, add_error, modify_ctx; cbn.
  destruct (get_intent_by_name tool_name) as [it |].
  - unfold request_headers. cbn [world ctx invoked].
    match goal with |- context[request ?a ?b ?c ?d ?e] =>
      destruct (request a b c d e) as [w' [resp | x]] end.
    + destruct (Z.eqb (status_code resp) 200).
      * destruct (json_body resp) as [x | j]; cbn.
        -- repeat split.
        -- destruct (model_validate fresh_id now j) as [r |]; cbn.
           ++ repeat split.
           ++ repeat (split; [reflexivity |]).
              exists validation_error. split; reflexivity.
      * cbn. repeat split.
    + cbn. repeat split.
  - cbn. repeat split.
Qed.

(** C5: under the Sequential strategy, when the first suggestion [A] of a
    batch runs successfully and its result does not request
    post-processing, the batch returns just [A]'s result and the state
    right after [A]: no later suggestion is attempted. *)
Theorem sequential_stops_after_terminal
  (A : SuggestedToolReference) (rest : list SuggestedToolReference)
  (a : string) (rA : ToolResult) (s s1 : St W) :
  hint A = Some a ->
  execute_tool get_intent_by_name request fresh_id now a (params_or_empty A) s = (s1, Ok (Some rA)) ->
  requiresPostProcessing (metadata rA) = false ->
  execute_sequential get_intent_by_name request fresh_id now (A :: rest) s = (s1, Ok [rA])
  /\ invoked s1 = (invoked s ++ [a])%list.
Proof.
  intros Hh Hex Hrp. split.
  - cbn [execute_sequential]. rewrite Hh. unfold bind. rewrite Hex, Hrp. reflexivity.
  - pose proof (execute_tool_step a (params_or_empty A) s) as Hs.
    rewrite Hex in Hs. exact (proj1 Hs).
Qed.

Lemma gather_effect (tasks : list SuggestedToolReference) (s : St W) :
  let '(s', r) := gather get_intent_by_name request fresh_id now tasks s in
  exists outs,
    r = Ok outs /\ length outs = length tasks /\
    invoked s' = (invoked s ++ map hint_name tasks)%list /\
    results (ctx s') = (results (ctx s) ++ somes outs)%list /\
    exists new_errors, errors (ctx s') = (errors (ctx s) ++ new_errors)%list
                      /\ length new_errors = count_none outs.
Proof.
  revert s. induction tasks as [| t tasks IH]; intros s.
  - exists []. cbn. repeat split; try (now rewrite app_nil_r).
    exists []. split; [now rewrite app_nil_r | reflexivity].
  - cbn [gather]. unfold bind at 1.
    pose proof (execute_tool_step (hint_name t) (params_or_empty t) s) as Hs.
    destruct (execute_tool get_intent_by_name request fresh_id now (hint_name t)
                (params_or_empty t) s) as [s1 [o | x]]; [| destruct Hs as [_ []]].
    destruct Hs as [Hinv1 Hctx1].
    unfold bind at 1. specialize (IH s1).
    destruct (gather get_intent_by_name request fresh_id now tasks s1) as [s2 r2].
    destruct IH as (outs & -> & Hlen & Hinv2 & Hres2 & errs & Herr2 & Hcnt).
    exists (o :: outs). cbn. split; [reflexivity |]. split; [now rewrite Hlen |].
    split; [rewrite Hinv2, Hinv1, <- app_assoc; reflexivity |].
    destruct o as [x |].
    + rewrite Hctx1 in Hres2, Herr2. cbn in Hres2, Herr2.
      split; [rewrite Hres2, <- app_assoc; reflexivity |].
      exists errs. split; [exact Herr2 | exact Hcnt].
    + destruct Hctx1 as [e He]. rewrite He in Hres2, Herr2. cbn in Hres2, Herr2.
      split; [exact Hres2 |].
      exists (e :: errs). split; [rewrite Herr2, <- app_assoc; reflexivity | cbn; now rewrite Hcnt].
Qed.

(** C6: under the Parallel strategy exactly the suggestions of type
    Retriever or Analyzer that carry a (non-empty) tool-name hint are
    invoked, in batch order, and no other one; the returned batch keeps
    only the successful invocations, while every failed one has left one
    entry in [context.errors]. *)
Theorem parallel_invokes_read_only (ss : list SuggestedToolReference) (s : St W) :
  (forall x, parallel_eligible x = true <->
             (toolType x = RETRIEVER \/ toolType x = ANALYZER) /\ hint x <> None)
  /\
  let '(s', r) := execute_parallel get_intent_by_name request fresh_id now ss s in
  exists outs,
    r = Ok (somes outs) /\ length outs = length (filter parallel_eligible ss) /\
    invoked s' = (invoked s ++ map hint_name (filter parallel_eligible ss))%list /\
    results (ctx s') = (results (ctx s) ++ somes outs)%list /\
    exists new_errors, errors (ctx s') = (errors (ctx s) ++ new_errors)%list
                      /\ length new_errors = count_none outs.
Proof.
  split.
  - intros x. unfold parallel_eligible.
    destruct (toolType x), (hint x); split; intros H;
      first [ reflexivity | discriminate | (split; [auto | discriminate])
            | (destruct H as [_ H]; contradiction H; reflexivity)
            | (destruct H as [[H | H] _]; discriminate) ].
  - unfold execute_parallel.
    destruct (filter parallel_eligible ss) as [| t ts] eqn:Hf.
    + exists []. cbn. repeat split; try (now rewrite app_nil_r).
      exists []. split; [now rewrite app_nil_r | reflexivity].
    + rewrite <- Hf. unfold bind.
      pose proof (gather_effect (filter parallel_eligible ss) s) as Hg.
      destruct (gather get_intent_by_name request fresh_id now (filter parallel_eligible ss) s)
        as [s' r].
      destruct Hg as (outs & -> & Hg). exists outs. split; [reflexivity | exact Hg].
Qed.

(** C7: under the Conditional strategy the decision of
    [_evaluate_condition] is the policy of the design (Validators always
    run, a Modifier is skipped exactly when the most recent result in the
    context has [requiresPostProcessing] false, every other type runs),
    and a suggestion with a tool-name hint is executed, before the rest
    of the batch, exactly when that policy says so. *)
Theorem conditional_follows_policy
  (sg : SuggestedToolReference) (h : string) (rest : list SuggestedToolReference) (s : St W) :
  hint sg = Some h ->
  evaluate_condition sg (ctx s) = conditional_policy sg (ctx s)
  /\ execute_conditional get_intent_by_name request fresh_id now (sg :: rest) s =
     (if conditional_policy sg (ctx s) then
        (result <- execute_tool get_intent_by_name request fresh_id now h (params_or_empty sg) ;;
         rs <- execute_conditional get_intent_by_name request fresh_id now rest ;;
         ret (match result with Some r => r :: rs | None => rs end)) s
      else execute_conditional get_intent_by_name request fresh_id now rest s).
Proof.
  intros Hh.
  assert (Hp : evaluate_condition sg (ctx s) = conditional_policy sg (ctx s)).
  { unfold evaluate_condition, conditional_policy.
    destruct (get_last_result (ctx s)) as [lr |];
      destruct (toolType sg); cbn; try reflexivity;
      destruct (requiresPostProcessing (metadata lr)); reflexivity. }
  split; [exact Hp |].
  cbn [execute_conditional]. unfold bind at 1, get_ctx. rewrite Hp, Hh.
  destruct (conditional_policy sg (ctx s)); reflexivity.
Qed.

End Executor.

(** ** The chain executor *)

Section Chain.

Context {W : Type}.
Variable get_intent_by_name : string -> option ToolIntent.
Variable request : W -> string -> string -> pydict -> list (string * string) -> W * Outcome.
Variables fresh_id now : string.

Definition never_raises {A} (m : M W A) : Prop :=
  forall s, exists s' a, m s = (s', Ok a).

Lemma execute_tool_never_raises t p :
  never_raises (execute_tool get_intent_by_name request fresh_id now t p).
Proof.
  intros s. pose proof (execute_tool_step get_intent_by_name request fresh_id now t p s) as H.
  destruct (execute_tool get_intent_by_name request fresh_id now t p s) as [s' [a | x]].
  - eauto.
  - destruct H as [_ []].
Qed.

Lemma bind_never_raises {A B} (m : M W A) (k : A -> M W B) :
  never_raises m -> (forall a, never_raises (k a)) -> never_raises (bind m k).
Proof.
  intros Hm Hk s. destruct (Hm s) as (s1 & a & E). unfold bind. rewrite E. apply Hk.
Qed.

Lemma ret_never_raises {A} (a : A) : never_raises (ret a).
Proof. intros s. exists s, a. reflexivity. Qed.

Create HintDb engine.
#[local] Hint Resolve execute_tool_never_raises bind_never_raises ret_never_raises : engine.

Lemma execute_sequential_never_raises ss :
  never_raises (execute_sequential get_intent_by_name request fresh_id now ss).
Proof.
  induction ss as [| sg ss IH]; cbn [execute_sequential]; [auto with engine |].
  destruct (hint sg); [| exact IH].
  apply bind_never_raises; [auto with engine |].
  intros [r |]; [| exact IH].
  destruct (requiresPostProcessing (metadata r)); auto with engine.
Qed.

Lemma gather_never_raises ts :
  never_raises (gather get_intent_by_name request fresh_id now ts).
Proof. induction ts; cbn [gather]; auto with engine. Qed.

Lemma execute_conditional_never_raises ss :
  never_raises (execute_conditional get_intent_by_name request fresh_id now ss).
Proof.
  induction ss as [| sg ss IH]; cbn [execute_conditional]; [auto with engine |].
  intros s. unfold bind at 1, get_ctx.
  destruct (evaluate_condition sg (ctx s)), (hint sg); try apply IH.
  refine (bind_never_raises _ _ _ _ s); [auto with engine |].
  intros r. apply bind_never_raises; [exact IH | auto with engine].
Qed.

Lemma run_strategy_never_raises strategy ss :
  never_raises (run_strategy get_intent_by_name request fresh_id now strategy ss).
Proof.
  destruct strategy; cbn [run_strategy].
  - apply execute_sequential_never_raises.
  - unfold execute_parallel. destruct (filter parallel_eligible ss);
      [auto with engine | apply bind_never_raises; [apply gather_never_raises | auto with engine]].
  - apply execute_conditional_never_raises.
  - auto with engine.
Qed.

Local Open Scope nat_scope.

(** From [chain_length], at most [max_chain_length - chain_length] more
    iterations run: the loop's outcome with that much fuel is its outcome
    with any more, and it leaves normally with [chain_length] at most
    [max_chain_length]. *)
Lemma chain_loop_bounded (ex : ToolChainExecutor) strategy filter_func :
  forall fuel current cl rs s,
    max_chain_length ex - cl <= fuel -> cl <= max_chain_length ex ->
    chain_loop get_intent_by_name request fresh_id now fuel ex strategy filter_func current cl rs s
      = chain_loop get_intent_by_name request fresh_id now (max_chain_length ex - cl) ex strategy filter_func current cl rs s
    /\ exists s' rs' n,
         chain_loop get_intent_by_name request fresh_id now (max_chain_length ex - cl) ex strategy filter_func current cl rs s
           = (s', Ok (Some (rs', n))) /\ n <= max_chain_length ex.
Proof.
  induction fuel as [| fuel IH]; intros current cl rs s Hf Hcl.
  - assert (E : max_chain_length ex - cl = 0) by lia. rewrite E.
    split; [reflexivity |].
    cbn [chain_loop]. assert (Hg : Nat.ltb cl (max_chain_length ex) = false)
      by (apply Nat.ltb_ge; lia).
    rewrite Hg. eexists _, _, _. split; [reflexivity | exact Hcl].
  - destruct (Nat.ltb cl (max_chain_length ex)) eqn:Hg.
    + apply Nat.ltb_lt in Hg.
      assert (E : max_chain_length ex - cl = S (max_chain_length ex - S cl)) by lia.
      rewrite E. cbn [chain_loop].
      assert (Hg' : Nat.ltb cl (max_chain_length ex) = true) by (apply Nat.ltb_lt; lia).
      rewrite Hg'.
      destruct (suggestedTools (metadata current)) as [| t0 ts0];
        [split; [reflexivity | eexists _, _, _; split; [reflexivity | lia]] |].
      destruct (match filter_func with Some f => filter f (t0 :: ts0) | None => t0 :: ts0 end)
        as [| t1 ts1];
        [split; [reflexivity | eexists _, _, _; split; [reflexivity | lia]] |].
      unfold bind.
      destruct (run_strategy_never_raises strategy (t1 :: ts1) s) as (s1 & nr & Hr).
      rewrite Hr.
      destruct (last_opt nr) as [lr |];
        [| split; [reflexivity | eexists _, _, _; split; [reflexivity | lia]]].
      apply (IH lr (S cl) (rs ++ nr)%list s1); lia.
    + apply Nat.ltb_ge in Hg.
      assert (E : max_chain_length ex - cl = 0) by lia. rewrite E.
      cbn [chain_loop]. rewrite (proj2 (Nat.ltb_ge _ _) Hg).
      split; [reflexivity |]. eexists _, _, _. split; [reflexivity | exact Hcl].
Qed.

(** C1: [execute_chain] terminates and runs at most [max_chain_length]
    loop iterations (10 for a [ToolChainExecutor] as constructed), for
    every initial result, transport, strategy and filter, suggestion
    cycles included.  Each iteration consumes one unit of [fuel]: the
    loop run with [max_chain_length] units never runs out and leaves
    normally with [chain_length <= max_chain_length], and running it with
    any larger bound gives the very same outcome. *)
Theorem execute_chain_terminates (ex : ToolChainExecutor) (initial_result : ToolResult)
  (strategy : ExecutionStrategy) (filter_func : option (SuggestedToolReference -> bool))
  (fuel : nat) (s : St W) :
  max_chain_length ex <= fuel ->
  max_chain_length new_ToolChainExecutor = 10
  /\ execute_chain_fuel get_intent_by_name request fresh_id now fuel ex initial_result strategy filter_func s
     = execute_chain_fuel get_intent_by_name request fresh_id now (max_chain_length ex) ex
         initial_result strategy filter_func s
  /\ exists s' rs n,
       execute_chain_fuel get_intent_by_name request fresh_id now (max_chain_length ex) ex
         initial_result strategy filter_func s = (s', Ok (Some (rs, n)))
       /\ n <= max_chain_length ex.
Proof.
  intros Hf. split; [reflexivity |].
  unfold execute_chain_fuel, bind at 1, add_result, modify_ctx.
  set (s1 := {| world := world s; ctx := ctx_add_result (ctx s) initial_result;
                invoked := invoked s |}).
  destruct (chain_loop_bounded ex strategy filter_func fuel initial_result 0 [initial_result] s1)
    as [E [s' [rs [n [H1 H2]]]]]; [lia | lia |].
  rewrite Nat.sub_0_r in E, H1.
  destruct (chain_loop_bounded ex strategy filter_func (max_chain_length ex) initial_result 0
              [initial_result] s1) as [E' _]; [lia | lia |].
  rewrite Nat.sub_0_r in E'.
  split; [rewrite E; reflexivity |].
  exists s', rs, n. split; [exact H1 | exact H2].
Qed.

End Chain.

(** ** The workflow engine *)

Section Workflow.

Context {W : Type}.
Variable get_intent_by_name : string -> option ToolIntent.
Variable request : W -> string -> string -> pydict -> list (string * string) -> W * Outcome.
Variables fresh_id now : string.

(** C8 (amended): in a workflow [A; B; C] whose step [B] is required,
    when [A] succeeds (and merging its payload into the parameters does
    not raise) and [B] then fails, [execute_workflow] stops with the
    state right after [B] (so [C] is never attempted) and reports
    [failed], [failed_step] = [B]'s tool name, [completed_steps] = the
    [toolName] of [A]'s result (the name the tool reported), and the
    context's full error log. *)
Theorem workflow_required_failure_stops
  (engine : WorkflowEngine) (name : string) (A B C : WorkflowStep) (params params1 : pydict)
  (rA : ToolResult) (s s1 s2 : St W) :
  wf_lookup name (workflows engine) = Some [A; B; C] ->
  step_required B = true ->
  execute_tool get_intent_by_name request fresh_id now (step_tool A)
    (dict_merge params (step_params_or_empty A)) s = (s1, Ok (Some rA)) ->
  merge_payload params (payload rA) = inr params1 ->
  execute_tool get_intent_by_name request fresh_id now (step_tool B)
    (dict_merge params1 (step_params_or_empty B)) s1 = (s2, Ok None) ->
  execute_workflow get_intent_by_name request fresh_id now engine name params s
    = (s2, Ok (WFFailed name (step_tool B) [toolName rA] (errors (ctx s2))))
  /\ invoked s2 = (invoked s ++ [step_tool A; step_tool B])%list.
Proof.
  intros Hwf Hreq HA Hm HB. split.
  - unfold execute_workflow. rewrite Hwf. cbn [run_steps]. unfold bind at 1.
    rewrite HA. unfold bind at 1. rewrite Hm. cbn [run_steps]. unfold ret at 1.
    unfold bind at 1. rewrite HB. rewrite Hreq. reflexivity.
  - pose proof (execute_tool_step get_intent_by_name request fresh_id now (step_tool A)
                  (dict_merge params (step_params_or_empty A)) s) as H1.
    pose proof (execute_tool_step get_intent_by_name request fresh_id now (step_tool B)
                  (dict_merge params1 (step_params_or_empty B)) s1) as H2.
    rewrite HA in H1. rewrite HB in H2.
    rewrite (proj1 H2), (proj1 H1), <- app_assoc. reflexivity.
Qed.

Variables fresh_conv fresh_session : string.

(** C3 (amended): for a workflow name that is not registered,
    [ToolOrchestrator.execute_workflow] raises
    [ValueError("Unknown workflow: <name>")] to its caller, before any
    tool is invoked and with nothing recorded in the fresh context. *)
Theorem unknown_workflow_raises (name : string) (params : pydict) (user : string)
  (conv : option string) (s : St W) :
  wf_lookup name define_workflows = None ->
  let '(s', r) := orchestrator_execute_workflow get_intent_by_name request fresh_id now
                    fresh_conv fresh_session name params user conv s in
  r = Exc {| exc_type := "ValueError"; exc_msg := "Unknown workflow: " ++ name |}
  /\ invoked s' = invoked s /\ results (ctx s') = [] /\ errors (ctx s') = [].
Proof.
  intros H. unfold orchestrator_execute_workflow, set_ctx, modify_ctx, bind.
  unfold execute_workflow. cbn [workflows new_WorkflowEngine]. rewrite H.
  cbn. repeat split; reflexivity.
Qed.

End Workflow.

(** ** Concrete runs *)

Lemma execute_chain_terminates_witness :
  (max_chain_length new_ToolChainExecutor <= 10)%nat
  /\ exists s' rs n,
       execute_chain_fuel demo_registry cyc_transport "f" "n" 10 new_ToolChainExecutor
         cyc_result SEQUENTIAL None st0 = (s', Ok (Some (rs, n))) /\ (n <= 10)%nat.
Proof.
  split; [cbn; lia |].
  destruct (execute_chain_terminates demo_registry cyc_transport "f" "n" new_ToolChainExecutor
              cyc_result SEQUENTIAL None 10 st0) as [_ [_ H]]; [cbn; lia |].
  exact H.
Defined.

(** In the suggestion cycle the bound is what stops the chain: ten
    batches run, eleven results are collected. *)
Example execute_chain_cycle_hits_bound :
  snd (execute_chain_fuel demo_registry cyc_transport "f" "n" 10 new_ToolChainExecutor
         cyc_result SEQUENTIAL None st0)
  = Ok (Some (repeat cyc_result 11, 10%nat)).
Proof. vm_compute. reflexivity. Qed.

(** C2 (code bug): the orchestrator runs the initial tool through
    [execute_tool], which appends its result to [context.results], then
    hands that result to [execute_chain], which appends it again.  On the
    request "list files", with a tool answering a result that requests
    post-processing and suggests nothing, the context ends with the same
    result twice: [total_tools] is 2 and [chain_executed] is true though
    only one tool ran. *)
Lemma execute_request_initial_result_twice :
  let '(s', r) := execute_request demo_registry pp_transport "f" "n" demo_classify []
                    "conv-x" "sess-x" "list files" "u" (Some "conv-1") st0 in
  results (ctx s') = [pp_result; pp_result]
  /\ invoked s' = ["list_files"]
  /\ match r with
     | Ok (ReqCompleted tool chained total _ _) =>
         tool = "list_files" /\ chained = true /\ total = 2%nat
     | _ => False
     end.
Proof. vm_compute. repeat split; reflexivity. Qed.

(** C3 (counterexample): an unregistered workflow name makes
    [ToolOrchestrator.execute_workflow] raise instead of returning a
    structured failure. *)
Lemma unknown_workflow_raises_example :
  snd (orchestrator_execute_workflow demo_registry setup_transport "f" "n" "conv-x" "sess-x"
         "deploy_release" [] "u" None st0)
  = Exc {| exc_type := "ValueError"; exc_msg := "Unknown workflow: deploy_release" |}.
Proof. vm_compute. reflexivity. Qed.

Lemma unknown_workflow_raises_witness :
  wf_lookup "deploy_release" define_workflows = None
  /\ let '(s', r) := orchestrator_execute_workflow demo_registry setup_transport "f" "n"
                       "conv-x" "sess-x" "deploy_release" [] "u" None st0 in
     r = Exc {| exc_type := "ValueError"; exc_msg := "Unknown workflow: " ++ "deploy_release" |}
     /\ invoked s' = invoked st0 /\ results (ctx s') = [] /\ errors (ctx s') = [].
Proof.
  split; [reflexivity |].
  apply (unknown_workflow_raises demo_registry setup_transport "f" "n" "conv-x" "sess-x"
           "deploy_release" [] "u" None st0).
  reflexivity.
Defined.

(** C4 (counterexample): a 2xx status other than 200 (here 201 Created,
    with a valid result body) is recorded as an error and no result is
    returned; and the error entry of a non-200 status has the keys
    [tool], [error] and [details], with no error kind. *)
Lemma execute_tool_201_is_error :
  let '(s', r) := execute_tool demo_registry create_repo_transport "f" "n"
                    "create_repository" [] st0 in
  r = Ok None /\ results (ctx s') = []
  /\ errors (ctx s') = [[("tool", JStr "create_repository"); ("error", JStr "HTTP 201");
                        ("details", JStr "")]]
  /\ lookup "kind" (hd [] (errors (ctx s'))) = None
  /\ lookup "type" (hd [] (errors (ctx s'))) = None.
Proof. vm_compute. repeat split; reflexivity. Qed.

Lemma sequential_stops_after_terminal_witness :
  let A := sugg RETRIEVER "list_files" in
  let s1 := fst (execute_tool demo_registry (by_endpoint (fun _ => respond 200 result_obj_payload))
                   "f" "n" "list_files" [] st0) in
  (hint A = Some "list_files"
   /\ execute_tool demo_registry (by_endpoint (fun _ => respond 200 result_obj_payload)) "f" "n"
        "list_files" (params_or_empty A) st0 = (s1, Ok (Some result_obj_payload))
   /\ requiresPostProcessing (metadata result_obj_payload) = false)
  /\ execute_sequential demo_registry (by_endpoint (fun _ => respond 200 result_obj_payload))
       "f" "n" (A :: [sugg ANALYZER "read_file"]) st0 = (s1, Ok [result_obj_payload])
  /\ invoked s1 = (invoked st0 ++ ["list_files"])%list.
Proof.
  cbv zeta.
  split; [split; [reflexivity | split; [vm_compute; reflexivity | reflexivity]] |].
  apply (sequential_stops_after_terminal demo_registry
           (by_endpoint (fun _ => respond 200 result_obj_payload)) "f" "n");
    [reflexivity | vm_compute; reflexivity | reflexivity].
Defined.

Lemma conditional_follows_policy_witness :
  let sg := sugg MODIFIER "read_file" in
  let s := {| world := tt; ctx := ctx_add_result (new_context "c" "u" "s") result_obj_payload;
              invoked := [] |} in
  hint sg = Some "read_file"
  /\ (evaluate_condition sg (ctx s) = conditional_policy sg (ctx s)
      /\ execute_conditional demo_registry cyc_transport "f" "n" (sg :: []) s =
         (if conditional_policy sg (ctx s) then
            (result <- execute_tool demo_registry cyc_transport "f" "n" "read_file" (params_or_empty sg) ;;
             rs <- execute_conditional demo_registry cyc_transport "f" "n" [] ;;
             ret (match result with Some r => r :: rs | None => rs end)) s
          else execute_conditional demo_registry cyc_transport "f" "n" [] s)).
Proof.
  cbv zeta. split; [reflexivity |].
  apply (conditional_follows_policy demo_registry cyc_transport "f" "n"). reflexivity.
Defined.

(** C8 (counterexample): in the registered [create_and_setup_repo]
    workflow, when [create_repository] succeeds and
    [initialize_repository] fails, [completed_steps] is
    [["create_github_repository"]], the name the [/github/create-repo]
    endpoint puts in its result, not the step name. *)
Lemma workflow_completed_steps_are_result_names :
  match snd (execute_workflow demo_registry setup_transport "f" "n" new_WorkflowEngine
               "create_and_setup_repo" [] st0) with
  | Ok (WFFailed _ failed completed _) =>
      failed = "initialize_repository"
      /\ completed = ["create_github_repository"]
      /\ completed <> ["create_repository"]
  | _ => False
  end.
Proof. vm_compute. split; [reflexivity | split; [reflexivity | discriminate]]. Qed.

Lemma workflow_required_failure_stops_witness :
  let s1 := fst (execute_tool demo_registry list_then_fail_transport "f" "n" "list_files" [] st0) in
  let s2 := fst (execute_tool demo_registry list_then_fail_transport "f" "n" "read_file"
                   [("files", JArr [JStr "a.txt"])] s1) in
  execute_workflow demo_registry list_then_fail_transport "f" "n" three_step_engine "three_step" [] st0
    = (s2, Ok (WFFailed "three_step" "read_file" ["list_files"] (errors (ctx s2))))
  /\ invoked s2 = (invoked st0 ++ ["list_files"; "read_file"])%list.
Proof.
  cbv zeta.
  apply (workflow_required_failure_stops demo_registry list_then_fail_transport "f" "n"
           three_step_engine "three_step" (wstep "list_files" true) (wstep "read_file" true)
           (wstep "check_status" true) [] [("files", JArr [JStr "a.txt"])] pp_result st0
           (fst (execute_tool demo_registry list_then_fail_transport "f" "n" "list_files" [] st0)));
    vm_compute; reflexivity.
Defined.

(* ================================================================== *)
(** * Further properties of the code *)

(** ** What the strategies and the chain record *)

Section Recording.

Context {W : Type}.
Variable get_intent_by_name : string -> option ToolIntent.
Variable request : W -> string -> string -> pydict -> list (string * string) -> W * Outcome.
Variables fresh_id now : string.

Lemma ctx_extends_refl c : ctx_extends c c [].
Proof. split; [now rewrite app_nil_r | exists []; now rewrite app_nil_r]. Qed.

Lemma ctx_extends_trans c1 c2 c3 rs1 rs2 :
  ctx_extends c1 c2 rs1 -> ctx_extends c2 c3 rs2 -> ctx_extends c1 c3 (rs1 ++ rs2).
Proof.
  intros [R1 [e1 E1]] [R2 [e2 E2]]. split.
  - rewrite R2, R1, app_assoc. reflexivity.
  - exists (e1 ++ e2)%list. rewrite E2, E1, app_assoc. reflexivity.
Qed.

Lemma execute_tool_extends t p s :
  let '(s', r) := execute_tool get_intent_by_name request fresh_id now t p s in
  invoked s' = (invoked s ++ [t])%list /\
  match r with
  | Ok o => ctx_extends (ctx s) (ctx s') (match o with Some x => [x] | None => [] end)
  | Exc _ => False
  end.
Proof.
  pose proof (execute_tool_step get_intent_by_name request fresh_id now t p s) as H.
  destruct (execute_tool get_intent_by_name request fresh_id now t p s) as [s' [[x |] | x]];
    destruct H as [Hi H]; split; try exact Hi; try contradiction.
  - rewrite H. split; [reflexivity | exists []; now rewrite app_nil_r].
  - destruct H as [e ->]. split; [now rewrite app_nil_r | exists [e]; reflexivity].
Qed.

Ltac step_tool t p s :=
  unfold bind at 1;
  pose proof (execute_tool_extends t p s) as Hstep;
  destruct (execute_tool get_intent_by_name request fresh_id now t p s) as [?s1 [[?x |] | ?x]];
  destruct Hstep as [?Hinv ?Hext]; [| | contradiction].

Lemma execute_sequential_extends ss s :
  let '(s', r) := execute_sequential get_intent_by_name request fresh_id now ss s in
  match r with
  | Ok rs => ctx_extends (ctx s) (ctx s') rs
             /\ exists l, invoked s' = (invoked s ++ l)%list /\ subseq l (hinted_names ss)
  | Exc _ => False
  end.
Proof.
  revert s. induction ss as [| sg ss IH]; intros s; cbn [execute_sequential hinted_names flat_map].
  - split; [apply ctx_extends_refl | exists []; split; [now rewrite app_nil_r | constructor]].
  - destruct (hint sg) as [h |]; cbn [app].
    + step_tool h (params_or_empty sg) s.
      * destruct (requiresPostProcessing (metadata x)).
        -- unfold bind at 1. specialize (IH s1).
           destruct (execute_sequential get_intent_by_name request fresh_id now ss s1)
             as [s2 [rs | e]]; [| contradiction].
           destruct IH as [Hx [l [Hl Hsub]]]. split.
           ++ exact (ctx_extends_trans _ _ _ [x] rs Hext Hx).
           ++ exists (h :: l). split; [rewrite Hl, Hinv, <- app_assoc; reflexivity |].
              constructor; exact Hsub.
        -- split; [exact Hext |]. exists [h]. split; [exact Hinv |].
           constructor. clear. induction (flat_map _ ss); constructor; assumption.
      * specialize (IH s1).
        destruct (execute_sequential get_intent_by_name request fresh_id now ss s1)
          as [s2 [rs | e]]; [| contradiction].
        destruct IH as [Hx [l [Hl Hsub]]]. split.
        -- exact (ctx_extends_trans _ _ _ [] rs Hext Hx).
        -- exists (h :: l). split; [rewrite Hl, Hinv, <- app_assoc; reflexivity |].
           constructor; exact Hsub.
    + apply IH.
Qed.

Lemma execute_conditional_extends ss s :
  let '(s', r) := execute_conditional get_intent_by_name request fresh_id now ss s in
  match r with
  | Ok rs => ctx_extends (ctx s) (ctx s') rs
             /\ exists l, invoked s' = (invoked s ++ l)%list /\ subseq l (hinted_names ss)
  | Exc _ => False
  end.
Proof.
  revert s. induction ss as [| sg ss IH]; intros s; cbn [execute_conditional hinted_names flat_map].
  - split; [apply ctx_extends_refl | exists []; split; [now rewrite app_nil_r | constructor]].
  - unfold bind at 1, get_ctx.
    destruct (evaluate_condition sg (ctx s)), (hint sg) as [h |]; cbn [app];
      try (specialize (IH s);
           destruct (execute_conditional get_intent_by_name request fresh_id now ss s)
             as [s2 [rs | e]]; [| contradiction];
           destruct IH as [Hx [l [Hl Hsub]]]; split; [exact Hx |];
           exists l; split; [exact Hl | first [exact Hsub | apply subseq_skip; exact Hsub]]).
    step_tool h (params_or_empty sg) s;
      unfold bind at 1; specialize (IH s1);
      destruct (execute_conditional get_intent_by_name request fresh_id now ss s1)
        as [s2 [rs | e]]; try contradiction;
      destruct IH as [Hx [l [Hl Hsub]]]; unfold ret; (split;
        [exact (ctx_extends_trans _ _ _ _ rs Hext Hx)
        | exists (h :: l); split; [rewrite Hl, Hinv, <- app_assoc; reflexivity
                                  | constructor; exact Hsub]]).
Qed.

Lemma run_strategy_extends strategy ss s :
  let '(s', r) := run_strategy get_intent_by_name request fresh_id now strategy ss s in
  match r with
  | Ok rs => ctx_extends (ctx s) (ctx s') rs
  | Exc _ => False
  end.
Proof.
  destruct strategy; cbn [run_strategy].
  - pose proof (execute_sequential_extends ss s) as H.
    destruct (execute_sequential get_intent_by_name request fresh_id now ss s) as [s' [rs | e]];
      [exact (proj1 H) | contradiction].
  - unfold execute_parallel. destruct (filter parallel_eligible ss) as [| t ts].
    + apply ctx_extends_refl.
    + unfold bind. pose proof (gather_effect get_intent_by_name request fresh_id now (t :: ts) s) as H.
      destruct (gather get_intent_by_name request fresh_id now (t :: ts) s) as [s' r].
      destruct H as (outs & -> & _ & _ & Hres & errs & Herr & _).
      split; [exact Hres | exists errs; exact Herr].
  - pose proof (execute_conditional_extends ss s) as H.
    destruct (execute_conditional get_intent_by_name request fresh_id now ss s) as [s' [rs | e]];
      [exact (proj1 H) | contradiction].
  - apply ctx_extends_refl.
Qed.

Lemma last_opt_none {A} (xs : list A) : last_opt xs = None -> xs = [].
Proof.
  induction xs as [| x [| y xs] IH]; cbn; intros H; try discriminate; try reflexivity.
  specialize (IH H). discriminate.
Qed.

Lemma chain_loop_extends ex strategy filter_func :
  forall fuel current cl acc s,
  let '(s', r) := chain_loop get_intent_by_name request fresh_id now fuel ex strategy filter_func
                    current cl acc s in
  match r with
  | Ok (Some (rs, _)) => exists tail, rs = (acc ++ tail)%list /\ ctx_extends (ctx s) (ctx s') tail
  | _ => True
  end.
Proof.
  induction fuel as [| fuel IH]; intros current cl acc s; cbn [chain_loop].
  - destruct (Nat.ltb cl (max_chain_length ex)); [exact I |].
    exists []. split; [now rewrite app_nil_r | apply ctx_extends_refl].
  - destruct (Nat.ltb cl (max_chain_length ex));
      [| exists []; split; [now rewrite app_nil_r | apply ctx_extends_refl]].
    destruct (suggestedTools (metadata current)) as [| t0 ts0];
      [exists []; split; [now rewrite app_nil_r | apply ctx_extends_refl] |].
    destruct (match filter_func with Some f => filter f (t0 :: ts0) | None => t0 :: ts0 end)
      as [| t1 ts1];
      [exists []; split; [now rewrite app_nil_r | apply ctx_extends_refl] |].
    unfold bind. pose proof (run_strategy_extends strategy (t1 :: ts1) s) as Hs.
    destruct (run_strategy get_intent_by_name request fresh_id now strategy (t1 :: ts1) s)
      as [s1 [nr | e]]; [| contradiction].
    destruct (last_opt nr) as [lr |] eqn:El.
    + specialize (IH lr (S cl) (acc ++ nr)%list s1).
      destruct (chain_loop get_intent_by_name request fresh_id now fuel ex strategy filter_func
                  lr (S cl) (acc ++ nr)%list s1) as [s2 [[[rs n] |] | e]]; try exact I.
      destruct IH as [tail [Hrs Hx]]. exists (nr ++ tail)%list. split.
      * rewrite Hrs, app_assoc. reflexivity.
      * exact (ctx_extends_trans _ _ _ _ _ Hs Hx).
    + apply last_opt_none in El. subst nr.
      exists []. split; [now rewrite app_nil_r | exact Hs].
Qed.

(** Under every strategy but [PARALLEL] (whose [asyncio.gather] records
    results in completion order), [execute_chain] returns a list that
    starts with [initial_result], and the context's [results] end up
    extended by exactly that list (the initial result included); the
    context's [errors] only grow. *)
Theorem execute_chain_records_results (ex : ToolChainExecutor) (initial_result : ToolResult)
  (strategy : ExecutionStrategy) (filter_func : option (SuggestedToolReference -> bool)) (s : St W) :
  strategy <> PARALLEL ->
  let '(s', r) := execute_chain get_intent_by_name request fresh_id now ex initial_result
                    strategy filter_func s in
  exists rs, r = Ok rs /\ hd_error rs = Some initial_result /\ ctx_extends (ctx s) (ctx s') rs.
Proof.
  intros _.
  unfold execute_chain, execute_chain_fuel, bind, add_result, modify_ctx, ret.
  cbv beta iota.
  set (s1 := {| world := world s; ctx := ctx_add_result (ctx s) initial_result;
                invoked := invoked s |}).
  destruct (chain_loop_bounded get_intent_by_name request fresh_id now ex strategy filter_func
              (max_chain_length ex) initial_result 0 [initial_result] s1)
    as [_ [s' [rs [n [H1 _]]]]]; [lia | lia |].
  rewrite Nat.sub_0_r in H1.
  pose proof (chain_loop_extends ex strategy filter_func (max_chain_length ex) initial_result 0
                [initial_result] s1) as Hx.
  rewrite H1 in Hx |- *. destruct Hx as [tail [-> Hx]].
  exists (initial_result :: tail). split; [reflexivity |]. split; [reflexivity |].
  refine (ctx_extends_trans _ _ _ [initial_result] tail _ Hx).
  split; [reflexivity | exists []; now rewrite app_nil_r].
Qed.

(** When the strategy is [INTERACTIVE], or no suggestion of the initial
    result passes the filter, [execute_chain] invokes no tool: it only
    appends the initial result to the context and returns [[initial_result]]. *)
Theorem execute_chain_without_work (ex : ToolChainExecutor) (initial_result : ToolResult)
  (strategy : ExecutionStrategy) (filter_func : option (SuggestedToolReference -> bool)) (s : St W) :
  strategy = INTERACTIVE \/ filtered_suggestions filter_func initial_result = [] ->
  execute_chain get_intent_by_name request fresh_id now ex initial_result strategy filter_func s
  = ({| world := world s; ctx := ctx_add_result (ctx s) initial_result; invoked := invoked s |},
     Ok [initial_result]).
Proof.
  intros H. unfold execute_chain, execute_chain_fuel, bind, add_result, modify_ctx.
  destruct (max_chain_length ex) as [| m] eqn:Em; cbn [chain_loop]; rewrite Em; cbn [Nat.ltb Nat.leb];
    [reflexivity |].
  unfold filtered_suggestions in H.
  destruct (suggestedTools (metadata initial_result)) as [| t0 ts0]; [reflexivity |].
  destruct H as [-> | H].
  - destruct (match filter_func with Some f => filter f (t0 :: ts0) | None => t0 :: ts0 end);
      reflexivity.
  - rewrite H. reflexivity.
Qed.

(** [_execute_sequential] invokes only tools named by the hints of the
    batch, each at most once and in batch order (the invoked names form a
    subsequence of the hinted ones); suggestions without a hint are
    skipped.  [_execute_conditional] does the same. *)
Theorem strategies_invoke_hinted_subsequence (ss : list SuggestedToolReference) (s : St W) :
  (let '(s', r) := execute_sequential get_intent_by_name request fresh_id now ss s in
   exists l, invoked s' = (invoked s ++ l)%list /\ subseq l (hinted_names ss))
  /\ (let '(s', r) := execute_conditional get_intent_by_name request fresh_id now ss s in
      exists l, invoked s' = (invoked s ++ l)%list /\ subseq l (hinted_names ss)).
Proof.
  split.
  - pose proof (execute_sequential_extends ss s) as H.
    destruct (execute_sequential get_intent_by_name request fresh_id now ss s) as [s' [rs | e]];
      [exact (proj2 H) | contradiction].
  - pose proof (execute_conditional_extends ss s) as H.
    destruct (execute_conditional get_intent_by_name request fresh_id now ss s) as [s' [rs | e]];
      [exact (proj2 H) | contradiction].
Qed.

(** In the batch [_execute_sequential] returns, every result but the last
    requests post-processing: the loop goes on past a result only when
    it does. *)
Theorem sequential_only_last_terminal (ss : list SuggestedToolReference) (s : St W) :
  match snd (execute_sequential get_intent_by_name request fresh_id now ss s) with
  | Ok rs => Forall (fun r => requiresPostProcessing (metadata r) = true) (removelast rs)
  | Exc _ => True
  end.
Proof.
  revert s. induction ss as [| sg ss IH]; intros s; cbn [execute_sequential].
  - constructor.
  - destruct (hint sg) as [h |]; [| apply IH].
    unfold bind at 1.
    destruct (execute_tool get_intent_by_name request fresh_id now h (params_or_empty sg) s)
      as [s1 [[x |] | e]]; [| apply IH | exact I].
    destruct (requiresPostProcessing (metadata x)) eqn:Ex; [| constructor].
    unfold bind. specialize (IH s1).
    destruct (execute_sequential get_intent_by_name request fresh_id now ss s1) as [s2 [rs | e]];
      [| exact I].
    cbn in IH |- *. destruct rs as [| r rs]; [constructor |].
    constructor; [exact Ex | exact IH].
Qed.

End Recording.

(** ** Workflows and requests *)

Section Outcomes.

Context {W : Type}.
Variable get_intent_by_name : string -> option ToolIntent.
Variable request : W -> string -> string -> pydict -> list (string * string) -> W * Outcome.
Variables fresh_id now : string.

Lemma run_steps_optional name steps :
  all_optional steps = true ->
  forall acc params s,
  match snd (run_steps get_intent_by_name request fresh_id now name steps acc params s) with
  | Ok (WFFailed _ _ _ _) => False
  | _ => True
  end.
Proof.
  induction steps as [| st steps IH]; intros Hopt acc params s; cbn [run_steps].
  - exact I.
  - cbn in Hopt. apply andb_true_iff in Hopt as [Hst Hopt].
    unfold bind at 1.
    pose proof (execute_tool_step get_intent_by_name request fresh_id now (step_tool st)
                  (dict_merge params (step_params_or_empty st)) s) as Hs.
    destruct (execute_tool get_intent_by_name request fresh_id now (step_tool st)
                (dict_merge params (step_params_or_empty st)) s) as [s1 [[r |] | e]];
      [| | destruct Hs as [_ []]].
    + unfold bind. destruct (merge_payload params (payload r)); [exact I | apply IH; exact Hopt].
    + destruct (step_required st); [discriminate | apply IH; exact Hopt].
Qed.

(** A workflow whose steps are all optional never reports [failed]: it
    completes, or raises when a payload cannot be merged into the
    parameters. *)
Theorem optional_workflow_never_fails (engine : WorkflowEngine) (name : string)
  (steps : list WorkflowStep) (params : pydict) (s : St W) :
  wf_lookup name (workflows engine) = Some steps ->
  all_optional steps = true ->
  match snd (execute_workflow get_intent_by_name request fresh_id now engine name params s) with
  | Ok (WFFailed _ _ _ _) => False
  | _ => True
  end.
Proof.
  intros Hwf Hopt. unfold execute_workflow. rewrite Hwf. apply run_steps_optional; exact Hopt.
Qed.

Lemma run_steps_completed name steps :
  forall base acc params s,
  results (ctx s) = (base ++ acc)%list ->
  match snd (run_steps get_intent_by_name request fresh_id now name steps acc params s) with
  | Ok (WFCompleted _ n rs summ) =>
      n = length rs /\ total_tools_executed summ = (length base + n)%nat
      /\ tool_chain summ = map toolName (base ++ rs)
  | _ => True
  end.
Proof.
  induction steps as [| st steps IH]; intros base acc params s Hr; cbn [run_steps].
  - cbn. rewrite Hr, length_app. repeat split; reflexivity.
  - unfold bind at 1.
    pose proof (execute_tool_step get_intent_by_name request fresh_id now (step_tool st)
                  (dict_merge params (step_params_or_empty st)) s) as Hs.
    destruct (execute_tool get_intent_by_name request fresh_id now (step_tool st)
                (dict_merge params (step_params_or_empty st)) s) as [s1 [[r |] | e]];
      destruct Hs as [_ Hs]; [| | contradiction].
    + unfold bind. destruct (merge_payload params (payload r)); [exact I |].
      apply IH. rewrite Hs. cbn. rewrite Hr, app_assoc. reflexivity.
    + destruct (step_required st); [exact I |].
      apply IH. destruct Hs as [e ->]. exact Hr.
Qed.

Variables fresh_conv fresh_session : string.

(** When [ToolOrchestrator.execute_workflow] reports [completed], its
    summary describes exactly the workflow's own steps: the fresh context
    counts [steps_executed] tools, its [tool_chain] is the [toolName]s of
    the returned [results], and it carries the given conversation id (or
    the generated one). *)
Theorem orchestrator_workflow_summary (name : string) (params : pydict) (user : string)
  (conv : option string) (s : St W) :
  match snd (orchestrator_execute_workflow get_intent_by_name request fresh_id now
               fresh_conv fresh_session name params user conv s) with
  | Ok (WFCompleted _ n rs summ) =>
      total_tools_executed summ = n /\ tool_chain summ = map toolName rs
      /\ sum_conversation_id summ = or_fresh conv fresh_conv
  | _ => True
  end.
Proof.
  unfold orchestrator_execute_workflow, set_ctx, modify_ctx, bind at 1. cbn [snd].
  unfold execute_workflow. cbn [workflows new_WorkflowEngine].
  destruct (wf_lookup name define_workflows) as [steps |]; [| exact I].
  set (s1 := {| world := world s;
                ctx := new_context (or_fresh conv fresh_conv)
                         user fresh_session;
                invoked := invoked s |}).
  pose proof (run_steps_completed name steps [] [] params s1 eq_refl) as H.
  assert (Hc : forall acc ps st,
    match snd (run_steps get_intent_by_name request fresh_id now name steps acc ps st) with
    | Ok (WFCompleted _ _ _ summ) => sum_conversation_id summ = conversation_id (ctx st)
    | _ => True
    end).
  { clear. induction steps as [| stp steps IH]; intros acc ps st; cbn [run_steps]; [reflexivity |].
    unfold bind at 1.
    pose proof (execute_tool_step get_intent_by_name request fresh_id now (step_tool stp)
                  (dict_merge ps (step_params_or_empty stp)) st) as Hs.
    destruct (execute_tool get_intent_by_name request fresh_id now (step_tool stp)
                (dict_merge ps (step_params_or_empty stp)) st) as [s2 [[r |] | e]];
      destruct Hs as [_ Hs]; [| | contradiction].
    - unfold bind. destruct (merge_payload ps (payload r)) as [x | d]; [exact I |].
      specialize (IH (acc ++ [r])%list d s2). rewrite Hs in IH. exact IH.
    - destruct (step_required stp); [exact I |].
      specialize (IH acc ps s2). destruct Hs as [e He]. rewrite He in IH. exact IH. }
  specialize (Hc [] params s1).
  destruct (snd (run_steps get_intent_by_name request fresh_id now name steps [] params s1))
    as [[| nm n rs summ] | e]; try exact I.
  destruct H as [-> [Ht Hch]]. split; [exact Ht |]. split; [exact Hch | exact Hc].
Qed.

Variables classify_intent : string -> option ToolIntent.
Variable intent_names : list string.

(** When the first tool's result does not request post-processing,
    [execute_request] runs no chain: it reports [completed] with
    [chain_executed] false, [total_tools] 1 and that result as the final
    one, having invoked that tool only. *)
Theorem execute_request_without_chain (q user : string) (conv : option string) (s s1 : St W)
  (it : ToolIntent) (ir : ToolResult) :
  classify_intent q = Some it ->
  execute_tool get_intent_by_name request fresh_id now (intent_name it) []
    {| world := world s;
       ctx := new_context (or_fresh conv fresh_conv) user fresh_session;
       invoked := invoked s |} = (s1, Ok (Some ir)) ->
  requiresPostProcessing (metadata ir) = false ->
  execute_request get_intent_by_name request fresh_id now classify_intent intent_names
    fresh_conv fresh_session q user conv s
  = (s1, Ok (ReqCompleted (toolName ir) false 1 (get_execution_summary (ctx s1)) (Some ir)))
  /\ results (ctx s1) = [ir] /\ invoked s1 = (invoked s ++ [intent_name it])%list.
Proof.
  intros Hc He Hp.
  pose proof (execute_tool_step get_intent_by_name request fresh_id now (intent_name it) []
    {| world := world s;
       ctx := new_context (or_fresh conv fresh_conv) user fresh_session;
       invoked := invoked s |}) as Hs.
  rewrite He in Hs. destruct Hs as [Hinv Hctx].
  assert (Hr : results (ctx s1) = [ir]) by (rewrite Hctx; reflexivity).
  split; [| split; [exact Hr | exact Hinv]].
  unfold execute_request, set_ctx, modify_ctx, bind at 1. rewrite Hc.
  unfold bind at 1. rewrite He, Hp. unfold ret, bind, get_ctx, get_last_result. rewrite Hr.
  reflexivity.
Qed.

(** When the first tool fails, [execute_request] reports the failure with
    the summary of a context holding no result and exactly one error. *)
Theorem execute_request_initial_failure (q user : string) (conv : option string) (s s1 : St W)
  (it : ToolIntent) :
  classify_intent q = Some it ->
  execute_tool get_intent_by_name request fresh_id now (intent_name it) []
    {| world := world s;
       ctx := new_context (or_fresh conv fresh_conv) user fresh_session;
       invoked := invoked s |} = (s1, Ok None) ->
  execute_request get_intent_by_name request fresh_id now classify_intent intent_names
    fresh_conv fresh_session q user conv s
  = (s1, Ok (ReqInitialFailed (get_execution_summary (ctx s1))))
  /\ total_tools_executed (get_execution_summary (ctx s1)) = 0%nat
  /\ sum_errors (get_execution_summary (ctx s1)) = 1%nat
  /\ successful (get_execution_summary (ctx s1)) = false.
Proof.
  intros Hc He.
  pose proof (execute_tool_step get_intent_by_name request fresh_id now (intent_name it) []
    {| world := world s;
       ctx := new_context (or_fresh conv fresh_conv) user fresh_session;
       invoked := invoked s |}) as Hs.
  rewrite He in Hs. destruct Hs as [_ [e Hctx]].
  split.
  - unfold execute_request, set_ctx, modify_ctx, bind at 1. rewrite Hc.
    unfold bind at 1. rewrite He. reflexivity.
  - rewrite Hctx. repeat split; reflexivity.
Qed.

End Outcomes.

(** ** Concrete runs of the further properties *)

Lemma execute_chain_records_results_witness :
  SEQUENTIAL <> PARALLEL
  /\ (let '(s', r) := execute_chain demo_registry cyc_transport "f" "n" new_ToolChainExecutor
                        cyc_result SEQUENTIAL None st0 in
      exists rs, r = Ok rs /\ hd_error rs = Some cyc_result /\ ctx_extends (ctx st0) (ctx s') rs).
Proof.
  split; [discriminate |].
  apply (execute_chain_records_results demo_registry cyc_transport "f" "n" new_ToolChainExecutor
           cyc_result SEQUENTIAL None st0).
  discriminate.
Defined.

Lemma execute_chain_without_work_witness :
  (INTERACTIVE = INTERACTIVE \/ filtered_suggestions None cyc_result = [])
  /\ execute_chain demo_registry cyc_transport "f" "n" new_ToolChainExecutor cyc_result
       INTERACTIVE None st0
     = ({| world := world st0; ctx := ctx_add_result (ctx st0) cyc_result; invoked := invoked st0 |},
        Ok [cyc_result]).
Proof.
  split; [left; reflexivity |].
  apply (execute_chain_without_work demo_registry cyc_transport "f" "n" new_ToolChainExecutor
           cyc_result INTERACTIVE None st0).
  left; reflexivity.
Defined.

Lemma optional_workflow_never_fails_witness :
  wf_lookup "optional_only" (workflows optional_engine)
    = Some [wstep "list_files" false; wstep "read_file" false]
  /\ all_optional [wstep "list_files" false; wstep "read_file" false] = true
  /\ match snd (execute_workflow demo_registry setup_transport "f" "n" optional_engine
                  "optional_only" [] st0) with
     | Ok (WFFailed _ _ _ _) => False
     | _ => True
     end.
Proof.
  split; [reflexivity |]. split; [reflexivity |].
  apply (optional_workflow_never_fails demo_registry setup_transport "f" "n" optional_engine
           "optional_only" [wstep "list_files" false; wstep "read_file" false] [] st0);
    reflexivity.
Defined.

Lemma execute_request_without_chain_witness :
  let s1 := fst (execute_tool demo_registry list_files_done_transport "f" "n" "list_files" []
                   {| world := world st0; ctx := new_context "conv-1" "u" "sess-x";
                      invoked := invoked st0 |}) in
  demo_classify "list files" = demo_registry "list_files"
  /\ execute_request demo_registry list_files_done_transport "f" "n" demo_classify []
       "conv-x" "sess-x" "list files" "u" (Some "conv-1") st0
     = (s1, Ok (ReqCompleted "list_files" false 1 (get_execution_summary (ctx s1))
                  (Some result_obj_payload))).
Proof.
  intros s1. split; [reflexivity |].
  refine (proj1 (execute_request_without_chain demo_registry list_files_done_transport "f" "n"
                   "conv-x" "sess-x" demo_classify [] "list files" "u" (Some "conv-1") st0 s1
                   {| intent_name := "list_files"; method := "GET";
                      endpoint := "/repos/list-files/{repo_path}" |}
                   result_obj_payload _ _ _));
    [reflexivity | vm_compute; reflexivity | reflexivity].
Defined.

Lemma execute_request_initial_failure_witness :
  let s1 := fst (execute_tool demo_registry setup_transport "f" "n" "list_files" []
                   {| world := world st0; ctx := new_context "conv-1" "u" "sess-x";
                      invoked := invoked st0 |}) in
  demo_classify "list files" = demo_registry "list_files"
  /\ execute_request demo_registry setup_transport "f" "n" demo_classify []
       "conv-x" "sess-x" "list files" "u" (Some "conv-1") st0
     = (s1, Ok (ReqInitialFailed (get_execution_summary (ctx s1))))
  /\ sum_errors (get_execution_summary (ctx s1)) = 1%nat.
Proof.
  intros s1. split; [reflexivity |].
  destruct (execute_request_initial_failure demo_registry setup_transport "f" "n"
              "conv-x" "sess-x" demo_classify [] "list files" "u" (Some "conv-1") st0 s1
              {| intent_name := "list_files"; method := "GET";
                 endpoint := "/repos/list-files/{repo_path}" |} eq_refl)
    as [H1 [_ [H2 _]]]; [vm_compute; reflexivity |].
  split; [exact H1 | exact H2].
Defined.

(** ** The keyword matcher *)

Lemma str_in_unfold (needle hay : string) :
  str_in needle hay =
  if String.prefix needle hay then true
  else match hay with EmptyString => false | String _ rest => str_in needle rest end.
Proof. destruct hay; reflexivity. Qed.

Lemma prefix_app_self (x r : string) : String.prefix x (x ++ r) = true.
Proof.
  induction x as [| c x IH]; cbn; [destruct r; reflexivity |].
  destruct (Ascii.ascii_dec c c) as [_ | n]; [exact IH | contradiction].
Qed.

Lemma prefix_spec (x h : string) : String.prefix x h = true -> exists r, h = (x ++ r)%string.
Proof.
  revert h. induction x as [| c x IH]; intros h H.
  - exists h. reflexivity.
  - destruct h as [| c' h]; [discriminate |]. cbn in H.
    destruct (Ascii.ascii_dec c c') as [-> | _]; [| discriminate].
    destruct (IH h H) as [r ->]. exists r. reflexivity.
Qed.

Lemma str_in_spec (x h : string) :
  str_in x h = true <-> exists p r, h = (p ++ x ++ r)%string.
Proof.
  split.
  - induction h as [| c h IH]; intros H; rewrite str_in_unfold in H.
    + destruct (String.prefix x "") eqn:E; [| discriminate].
      destruct (prefix_spec _ _ E) as [r Hr]. exists EmptyString, r. exact Hr.
    + destruct (String.prefix x (String c h)) eqn:E.
      * destruct (prefix_spec _ _ E) as [r Hr]. exists EmptyString, r. exact Hr.
      * destruct (IH H) as [p [r ->]]. exists (String c p), r. reflexivity.
  - intros [p [r ->]]. induction p as [| c p IH]; rewrite str_in_unfold.
    + cbn [append]. rewrite prefix_app_self. reflexivity.
    + destruct (String.prefix x (String c p ++ x ++ r)); [reflexivity | exact IH].
Qed.

Lemma str_in_files_file (q : string) : str_in "files" q = true -> str_in "file" q = true.
Proof.
  intros H. apply str_in_spec in H as [p [r ->]].
  apply str_in_spec. exists p, ("s" ++ r)%string. reflexivity.
Qed.

Lemma match_keywords_some (q : string) (m : list (KeywordKey * string)) (k : KeywordKey) (n : string) :
  In (k, n) m ->
  forallb (fun keyword => str_in keyword q) (keyword_items k) = true ->
  exists n', match_keywords q m = Some n'.
Proof.
  induction m as [| [k' n'] m IH]; cbn; [contradiction |]. intros [E | Hin] Hk.
  - inversion E; subst. rewrite Hk. eauto.
  - destruct (forallb _ (keyword_items k')); eauto.
Qed.

Lemma match_keywords_not_add_multiple (q : string) :
  match_keywords q keyword_intent_map <> Some "add_multiple_files".
Proof.
  pose proof (str_in_files_file q) as Himp. intros H.
  unfold keyword_intent_map in H. cbn [match_keywords keyword_items str_chars forallb] in H.
  destruct (str_in "add" q), (str_in "file" q), (str_in "files" q);
    try (specialize (Himp eq_refl); discriminate);
    cbn [andb] in H;
    repeat match type of H with context[if ?c then _ else _] => let E := fresh "E" in destruct c eqn:E end;
    try discriminate;
    rewrite ?andb_false_r in *; congruence.
Qed.

(** [classify_intent] never returns the [add_multiple_files] intent: both
    of its keys contain ["add"] and ["file"], so the earlier key
    [("add", "file")] has already matched. *)
Theorem classify_intent_never_add_multiple_files (lower : string -> string)
  (intent_get : string -> option ToolIntent) (user_query : string) :
  classify_intent lower intent_get user_query = None
  \/ exists n, n <> "add_multiple_files" /\ classify_intent lower intent_get user_query = intent_get n.
Proof.
  unfold classify_intent. set (q := lower user_query).
  pose proof (match_keywords_not_add_multiple q) as H.
  destruct (match_keywords q keyword_intent_map) as [n |] eqn:E.
  - right. exists n. split; [intros ->; contradiction | reflexivity].
  - left. reflexivity.
Qed.

(** The plain-string keys [("status")] and [("gitignore")] are checked
    character by character: every query whose lowercased text contains
    the letters s, t, a and u anywhere, or all the letters of
    "gitignore", is classified to some intent, whether or not it
    contains either word. *)
Theorem classify_intent_letter_keys (lower : string -> string)
  (intent_get : string -> option ToolIntent) (user_query : string) :
  forallb (fun c => str_in c (lower user_query)) ["s"; "t"; "a"; "u"] = true
  \/ forallb (fun c => str_in c (lower user_query)) ["g"; "i"; "t"; "n"; "o"; "r"; "e"] = true ->
  exists n, classify_intent lower intent_get user_query = intent_get n.
Proof.
  intros H. unfold classify_intent. set (q := lower user_query) in *.
  assert (Hm : exists n, match_keywords q keyword_intent_map = Some n).
  { destruct H as [H | H]; cbn [forallb] in H; repeat rewrite andb_true_iff in H.
    - apply (match_keywords_some q keyword_intent_map (KStr "status") "check_status").
      + cbn. repeat (first [left; reflexivity | right]).
      + cbn. destruct H as [-> [-> [-> [-> _]]]]. reflexivity.
    - apply (match_keywords_some q keyword_intent_map (KStr "gitignore") "generate_gitignore").
      + cbn. repeat (first [left; reflexivity | right]).
      + cbn. destruct H as [-> [-> [-> [-> [-> [-> [-> _]]]]]]]. reflexivity. }
  destruct Hm as [n ->]. exists n. reflexivity.
Qed.

Lemma classify_intent_letter_keys_witness :
  (forallb (fun c => str_in c ((fun x => x) "autos")) ["s"; "t"; "a"; "u"] = true
   \/ forallb (fun c => str_in c ((fun x => x) "autos")) ["g"; "i"; "t"; "n"; "o"; "r"; "e"] = true)
  /\ exists n, classify_intent (fun x => x) demo_registry "autos" = demo_registry n.
Proof.
  assert (H : forallb (fun c => str_in c ((fun x => x) "autos")) ["s"; "t"; "a"; "u"] = true
              \/ forallb (fun c => str_in c ((fun x => x) "autos"))
                   ["g"; "i"; "t"; "n"; "o"; "r"; "e"] = true)
    by (left; vm_compute; reflexivity).
  split; [exact H | exact (classify_intent_letter_keys (fun x => x) demo_registry "autos" H)].
Defined.

(** ** Payloads that cannot be merged *)

Section Payloads.

Context {W : Type}.
Variable get_intent_by_name : string -> option ToolIntent.
Variable request : W -> string -> string -> pydict -> list (string * string) -> W * Outcome.
Variables fresh_id now : string.

(** At any step of the [for step in workflow] loop (whatever results,
    parameters and state the earlier steps left), a step that succeeds
    with a truthy payload that is neither a mapping nor a list (a
    non-zero number, [true], a non-empty string) makes [params.update]
    raise: the loop, and so [execute_workflow], raises that [TypeError]
    or [ValueError] right after the step, and no later step runs. *)
Theorem workflow_scalar_payload_raises (name : string) (A : WorkflowStep)
  (rest : list WorkflowStep) (results : list ToolResult) (params : pydict) (rA : ToolResult)
  (s s1 : St W) :
  execute_tool get_intent_by_name request fresh_id now (step_tool A)
    (dict_merge params (step_params_or_empty A)) s = (s1, Ok (Some rA)) ->
  truthy (payload rA) = true ->
  match payload rA with JObj _ | JArr _ => False | _ => True end ->
  exists x, run_steps get_intent_by_name request fresh_id now name (A :: rest) results params s
            = (s1, Exc x)
            /\ (exc_type x = "TypeError" \/ exc_type x = "ValueError").
Proof.
  intros He Ht Hk. cbn [run_steps].
  unfold bind at 1. rewrite He. unfold merge_payload. rewrite Ht.
  destruct (payload rA) as [| b | z | f | str | xs | kvs]; try contradiction;
    cbn; eexists; (split; [reflexivity |]); cbn; auto.
Qed.

End Payloads.

Lemma workflow_scalar_payload_raises_witness :
  exists x, run_steps demo_registry scalar_payload_transport "f" "n" "three_step"
              [wstep "read_file" true; wstep "check_status" true] [pp_result]
              [("files", JArr [JStr "a.txt"])] st0
            = (fst (execute_tool demo_registry scalar_payload_transport "f" "n" "read_file"
                      (dict_merge [("files", JArr [JStr "a.txt"])] []) st0), Exc x)
            /\ (exc_type x = "TypeError" \/ exc_type x = "ValueError").
Proof.
  apply (workflow_scalar_payload_raises demo_registry scalar_payload_transport "f" "n"
           "three_step" (wstep "read_file" true) [wstep "check_status" true] [pp_result]
           [("files", JArr [JStr "a.txt"])] (mk_result "list_files" false [] (JStr "done")) st0).
  - vm_compute. reflexivity.
  - reflexivity.
  - exact I.
Defined.
